(** * The browser builder of build_angular: src/browser/index.ts

    A shallow embedding of the webpack browser builder: the logging
    adapter [createBrowserLoggingCallback], the configuration fragments
    [getAnalyticsConfig] and [getCompilerConfig], the fragment list of
    [buildBrowserWebpackConfigFromContext] and the orchestrator
    [buildWebpackBrowser].

    JavaScript values are modelled as the file uses them: an optional
    property is an [option], a condition on it is its truthiness, a call
    that may throw returns a [Result], and the calls made to the
    collaborators of the file (logger, webpack runner, output cleaner,
    service-worker augmenter, transforms) are recorded in a trace.
    Observables are modelled by their subscription: a function that
    pushes each value to the observer it is given.  A call that returns
    a promise or an observable has two ways to fail, which the file
    treats differently: the call itself may throw, or the promise may
    reject and the observable may fail once subscribed. *)

From Stdlib Require Import List String Ascii Bool Arith Lia Sorted.
Import ListNotations.
Open Scope string_scope.

(** ** JavaScript truthiness of the values the file tests *)

Definition truthyString (s : string) : bool :=
  match s with
  | EmptyString => false
  | String _ _ => true
  end.

(** [undefined] and [''] are falsy, every other string is truthy. *)
Definition truthy (o : option string) : bool :=
  match o with
  | Some s => truthyString s
  | None => false
  end.

(** [undefined] and [false] are falsy. *)
Definition isTrue (o : option bool) : bool :=
  match o with
  | Some b => b
  | None => false
  end.

(** [a || b] on optional strings: [a] when truthy, [b] otherwise. *)
Definition orElse (a : option string) (b : string) : string :=
  match a with
  | Some s => if truthyString s then s else b
  | None => b
  end.

(** [s.split(sep)] for a one-character separator. *)
Fixpoint split (sep : ascii) (s : string) : list string :=
  match s with
  | EmptyString => [EmptyString]
  | String c rest =>
      if Ascii.eqb c sep then EmptyString :: split sep rest
      else match split sep rest with
           | piece :: pieces => String c piece :: pieces
           | [] => [String c EmptyString]
           end
  end.

(** ** Exceptions *)

Inductive Exn : Type :=
| JsError (message : string).

Inductive Result (A : Type) : Type :=
| Ok (a : A)
| Throw (e : Exn).

Arguments Ok {A} a.
Arguments Throw {A} e.

(** ** Data model *)

Definition Json := string.
Definition StatsOptions := string.
Definition Path := string.

Inductive Analytics : Type :=
| AnalyticsSink (id : string).

(** [category] is [undefined] when the builder name has no second
    [':']-separated piece. *)
Inductive Plugin : Type :=
| NgBuildAnalyticsPlugin (projectRoot : string) (analytics : Analytics)
                         (category : option string)
| OtherPlugin (name : string).

(** A webpack.Configuration object: the two properties this file reads or
    writes, and the remaining properties as opaque settings. *)
Record Configuration : Type := mkConfiguration {
  plugins : option (list Plugin);
  stats : option StatsOptions;
  settings : list (string * string)
}.

(** The object literal [{}]. *)
Definition emptyObject : Configuration :=
  {| plugins := None; stats := None; settings := [] |}.

Record BrowserBuilderSchema : Type := mkSchema {
  outputPath : string;
  main : option string;
  polyfills : option string;
  aot : option bool;
  verbose : option bool;
  watch : option bool;
  serviceWorker : option bool;
  baseHref : option string;
  ngswConfigPath : option string;
  deleteOutputPath : option bool;
  webWorkerTsConfig : option string
}.

Record WebpackConfigOptions : Type := mkWco {
  wco_root : string;
  projectRoot : string;
  buildOptions : BrowserBuilderSchema
}.

Record Target : Type := mkTarget {
  project : string;
  target : string
}.

Record BuilderInfo : Type := mkBuilderInfo {
  builderName : string
}.

Record LoggerApi : Type := mkLogger {
  info : string -> Result unit;
  warn : string -> Result unit;
  error : string -> Result unit
}.

Record BuilderContext : Type := mkContext {
  workspaceRoot : string;
  ctx_target : option Target;
  analytics : option Analytics;
  builder : option BuilderInfo;
  logger : LoggerApi
}.

(** A webpack.Stats object, through the four methods the callback calls. *)
Record Stats : Type := mkStats {
  toJson : option StatsOptions -> Result Json;
  toString : option StatsOptions -> Result string;
  hasWarnings : Result bool;
  hasErrors : Result bool
}.

(** ** Effects: exceptions and a trace of the calls made

    A computation yields a value or throws, and lists the events it
    caused, in order, up to the point where it threw. *)

Definition Eff (E A : Type) : Type := (Result A * list E)%type.

Module EffMonad.

Definition ret {E A} (a : A) : Eff E A := (Ok a, []).

Definition bind {E A B} (m : Eff E A) (k : A -> Eff E B) : Eff E B :=
  match m with
  | (Ok a, t) => let (r, t') := k a in (r, (t ++ t')%list)
  | (Throw e, t) => (Throw e, t)
  end.

Definition throw {E A} (e : Exn) : Eff E A := (Throw e, []).

(** Record one event. *)
Definition tell {E} (ev : E) : Eff E unit := (Ok tt, [ev]).

(** A call to a collaborator: the call is recorded, then it returns
    or throws. *)
Definition call {E A} (ev : E) (r : Result A) : Eff E A := (r, [ev]).

(** A call that leaves no event. *)
Definition pure {E A} (r : Result A) : Eff E A := (r, []).

Fixpoint forEach {E A} (f : A -> Eff E unit) (l : list A) : Eff E unit :=
  match l with
  | [] => ret tt
  | a :: l' => bind (f a) (fun _ => forEach f l')
  end.

End EffMonad.

Import EffMonad.

Declare Scope eff_scope.
Delimit Scope eff_scope with eff.
Notation "x <- m ;; k" := (bind m (fun x => k))
  (at level 61, m at next level, right associativity) : eff_scope.
Notation "m ;;; k" := (bind m (fun _ => k))
  (at level 61, right associativity) : eff_scope.

(** ** The collaborators *)

Inductive Level : Type := LevelInfo | LevelWarn | LevelError.

(** A call made to the logger: its level and its message. *)
Definition LogCall : Type := (Level * string)%type.

Definition WebpackLoggingCallback : Type :=
  Stats -> Configuration -> Eff LogCall unit.

(** A BuilderOutput object; [runWebpack] and the aggregation yield it
    without [outputPath], the last stage adds the property. *)
Record BuilderOutput : Type := mkOutput {
  success : bool;
  out_outputPath : option string
}.

Record ProjectDefinition : Type := mkProject {
  proj_root : string
}.

Record Workspace : Type := mkWorkspace {
  ws_root : Path;
  getDefaultProjectName : option string;
  getProject : string -> Result ProjectDefinition
}.

(** The functions imported by the file that compute without effects.
    [normalize] and [resolve] are those of @angular-devkit/core, taken on
    valid paths: on a path that they refuse they throw, a case that is
    left out here.  [path_resolve] is Node's path.resolve; [variants]
    and [webpackMerge] belong to the configuration assembler. *)
Record Collaborators : Type := mkCollaborators {
  getCommonConfig : WebpackConfigOptions -> Configuration;
  getBrowserConfig : WebpackConfigOptions -> Configuration;
  getStylesConfig : WebpackConfigOptions -> Configuration;
  getStatsConfig : WebpackConfigOptions -> Configuration;
  getAotConfig : WebpackConfigOptions -> Configuration;
  getNonAotConfig : WebpackConfigOptions -> Configuration;
  getWorkerConfig : WebpackConfigOptions -> Configuration;
  statsToString : Json -> option StatsOptions -> Result string;
  statsWarningsToString : Json -> option StatsOptions -> Result string;
  statsErrorsToString : Json -> option StatsOptions -> Result string;
  normalize : string -> Path;
  resolve : Path -> Path -> Path;
  path_resolve : string -> string -> string;
  variants : Workspace -> BuilderContext -> BrowserBuilderSchema
             -> list WebpackConfigOptions;
  webpackMerge : list Configuration -> Configuration
}.

(** A promise, by how it settles: fulfilled with a value or rejected. *)
Definition Promise (A : Type) : Type := Result A.

(** An observable returned by a collaborator, by what it does once
    subscribed: it emits the listed values, then completes or fails. *)
Record Recorded (A : Type) : Type := mkRecorded {
  emitted : list A;
  failure : option Exn
}.

Arguments mkRecorded {A} emitted failure.
Arguments emitted {A} r.
Arguments failure {A} r.

(** What the outside answers during one run.  A call of [runWebpack] or
    of the augmenter may throw; otherwise it returns its observable or
    its promise.  [arrival] is the order in which the webpack runs emit
    or fail, by position of their configuration, and [configArrival] the
    order in which the configuration transforms emit or fail after the
    first value of each. *)
Record World : Type := mkWorld {
  workspaceFromPath : Path -> Result Workspace;
  deleteOutputDir : Path -> Path -> Result unit;
  runWebpack : Configuration -> BuilderContext -> WebpackLoggingCallback
               -> Result (Recorded BuilderOutput);
  arrival : list nat;
  configArrival : list nat;
  augmentAppWithServiceWorker :
    Path -> Path -> Path -> string -> option string -> Result (Promise unit)
}.

(** The caller's hooks.  A call of the configuration transform may
    throw; otherwise it returns its observable.  For the output
    transform, which is subscribed at once and alone, a call that throws
    is an observable that fails without a value. *)
Record Transforms : Type := mkTransforms {
  tf_config : option (Workspace -> Configuration -> Result (Recorded Configuration));
  tf_output : option (BuilderOutput -> Recorded BuilderOutput);
  tf_logging : option WebpackLoggingCallback
}.

(** The calls the orchestrator makes to the caller's transforms, the
    output cleaner, the webpack runner and the service-worker augmenter,
    and the values it hands to its subscriber. *)
Inductive Event : Type :=
| ConfigFn (config : Configuration)
| DeleteOutputDir (root path : Path)
| RunWebpack (config : Configuration)
| AugmentAppWithServiceWorker (root projectRoot path : Path)
                              (baseHref : string) (ngswConfigPath : option string)
| OutputFn (output : BuilderOutput)
| Emit (output : BuilderOutput).

(** ** Observables

    An observable is its subscription: it pushes every value, in order,
    to the observer [next]; it errors by throwing, and an observer that
    throws ends the subscription. *)

Definition Observable (A : Type) : Type := (A -> Eff Event unit) -> Eff Event unit.

Module Rx.

(** [of(a)]. *)
Definition of_ {A} (a : A) : Observable A := fun next => next a.

(** [throw] inside a project function. *)
Definition throwError {A} (e : Exn) : Observable A := fun _ => throw e.

(** [from(promise)] for a promise already settled as [r]. *)
Definition from {A} (r : Result A) : Observable A :=
  fun next => (a <- pure r ;; next a)%eff.

(** An observable that emits the listed values and completes. *)
Definition emits {A} (l : list A) : Observable A := fun next => forEach next l.

Definition map {A B} (f : A -> B) (o : Observable A) : Observable B :=
  fun next => o (fun a => next (f a)).

Definition concatMap {A B} (f : A -> Observable B) (o : Observable A)
  : Observable B :=
  fun next => o (fun a => f a next).

(** The sources that feed a [switchMap] in this file emit once (a
    settled promise, [of_], the output cleaner) or have a synchronous
    inner observable, but for the configuration transform, which may
    emit again: the stages that follow then run again, here after the
    inner subscription of the previous value has ended. *)
Definition switchMap {A B} (f : A -> Observable B) (o : Observable A)
  : Observable B :=
  concatMap f o.

(** [promise.then(onFulfilled, onRejected)]. *)
Definition thenElse {A B} (r : Result A) (onFulfilled : A -> B)
    (onRejected : Exn -> B) : Result B :=
  match r with
  | Ok a => Ok (onFulfilled a)
  | Throw e => Ok (onRejected e)
  end.

Fixpoint update {A} (i : nat) (a : A) (l : list A) : list A :=
  match l, i with
  | [], _ => []
  | _ :: l', O => a :: l'
  | x :: l', S i' => x :: update i' a l'
  end.

(** The latest values when every source has emitted. *)
Fixpoint allLatest {A} (latest : list (option A)) : option (list A) :=
  match latest with
  | [] => Some []
  | None :: _ => None
  | Some a :: rest =>
      match allLatest rest with
      | Some l => Some (a :: l)
      | None => None
      end
  end.

(** The arrays [combineLatest] emits: the source at position [i] emits
    its next value, if it has one, and once every source has emitted the
    array of the latest values is pushed. *)
Fixpoint combine {A} (pending : list (list A)) (latest : list (option A))
    (order : list nat) : list (list A) :=
  match order with
  | [] => []
  | i :: order' =>
      match nth_error pending i with
      | Some (a :: queue) =>
          let latest' := update i (Some a) latest in
          match allLatest latest' with
          | Some array => array :: combine (update i queue pending) latest' order'
          | None => combine (update i queue pending) latest' order'
          end
      | _ => combine pending latest order'
      end
  end.

(** The part of [order] that is heard: it ends where a source that has
    emitted all its values fails. *)
Fixpoint heard {A} (pending : list (list A)) (failures : list (option Exn))
    (order : list nat) : list nat * option Exn :=
  match order with
  | [] => ([], None)
  | i :: order' =>
      match nth_error pending i with
      | Some (a :: queue) =>
          let (prefix, failed) := heard (update i queue pending) failures order' in
          (i :: prefix, failed)
      | Some [] =>
          match nth_error failures i with
          | Some (Some e) => ([], Some e)
          | _ =>
              let (prefix, failed) := heard pending failures order' in
              (i :: prefix, failed)
          end
      | None =>
          let (prefix, failed) := heard pending failures order' in
          (i :: prefix, failed)
      end
  end.

(** [combineLatest(sources)]: the arrays of the latest values, until a
    source fails; with no source it completes at once. *)
Definition combineLatest {A} (sources : list (Recorded A)) (order : list nat)
  : Observable (list A) :=
  fun next =>
    let streams := List.map emitted sources in
    let (prefix, failed) := heard streams (List.map failure sources) order in
    (forEach next (combine streams (List.map (fun _ => None) streams) prefix) ;;;
     match failed with
     | Some e => throw e
     | None => ret tt
     end)%eff.

(** A collaborator called once, whose promise or one-shot observable
    settles as [r]. *)
Definition fromCall {A} (ev : Event) (r : Result A) : Observable A :=
  fun next => (a <- call ev r ;; next a)%eff.

(** A collaborator called once, whose observable emits the recorded
    values and then completes or fails. *)
Definition observe {A} (ev : Event) (r : Recorded A) : Observable A :=
  fun next =>
    (tell ev ;;;
     forEach next (emitted r) ;;;
     match failure r with
     | Some e => throw e
     | None => ret tt
     end)%eff.

(** [l.map(f)] for a function that calls a collaborator: the calls are
    made in the order of the list and stop at the first one that
    throws. *)
Fixpoint callEach {A B} (ev : A -> Event) (f : A -> Result B) (l : list A)
  : Eff Event (list B) :=
  match l with
  | [] => ret []
  | a :: l' =>
      (b <- call (ev a) (f a) ;;
       bs <- callEach ev f l' ;;
       ret (b :: bs))%eff
  end.

(** [combineLatest(l.map(f))]: the sources are built first, then
    combined. *)
Definition combineLatestOf {A B} (ev : A -> Event) (f : A -> Result (Recorded B))
    (l : list A) (order : list nat) : Observable (list B) :=
  fun next => (sources <- callEach ev f l ;; combineLatest sources order next)%eff.

(** What a subscriber receives. *)
Definition subscribe (o : Observable BuilderOutput) : Eff Event unit :=
  o (fun output => tell (Emit output)).

End Rx.

Notation "o |> f" := (f o) (at level 50, left associativity, only parsing).

(** ** The logging adapter *)

Section Builder.

Variable env : Collaborators.

Definition createBrowserLoggingCallback (verbose : bool) (logger : LoggerApi)
  : WebpackLoggingCallback :=
  fun (st : Stats) (config : Configuration) =>
    (json <- pure (toJson st (stats config)) ;;
     (if verbose then
        text <- pure (toString st (stats config)) ;;
        call (LevelInfo, text) (info logger text)
      else
        text <- pure (statsToString env json (stats config)) ;;
        call (LevelInfo, text) (info logger text)) ;;;
     warnings <- pure (hasWarnings st) ;;
     (if warnings then
        text <- pure (statsWarningsToString env json (stats config)) ;;
        call (LevelWarn, text) (warn logger text)
      else ret tt) ;;;
     errors <- pure (hasErrors st) ;;
     (if errors then
        text <- pure (statsErrorsToString env json (stats config)) ;;
        call (LevelError, text) (error logger text)
      else ret tt))%eff.

(** ** Configuration fragments *)

Definition getAnalyticsConfig (wco : WebpackConfigOptions) (context : BuilderContext)
  : Configuration :=
  match analytics context with
  | Some sink =>
      let category :=
        match builder context with
        | Some b => nth_error (split ":"%char (builderName b)) 1
        | None => Some "build"
        end in
      {| plugins := Some [NgBuildAnalyticsPlugin (projectRoot wco) sink category];
         stats := None;
         settings := [] |}
  | None => emptyObject
  end.

Definition getCompilerConfig (wco : WebpackConfigOptions) : Configuration :=
  if truthy (main (buildOptions wco)) || truthy (polyfills (buildOptions wco)) then
    if isTrue (aot (buildOptions wco)) then getAotConfig env wco
    else getNonAotConfig env wco
  else emptyObject.

(** The fragment generator that [buildBrowserWebpackConfigFromContext]
    hands to [generateBrowserWebpackConfigFromContext]. *)
Definition webpackPartialGenerator (context : BuilderContext)
    (wco : WebpackConfigOptions) : list Configuration :=
  [ getCommonConfig env wco;
    getBrowserConfig env wco;
    getStylesConfig env wco;
    getStatsConfig env wco;
    getAnalyticsConfig wco context;
    getCompilerConfig wco;
    if truthy (webWorkerTsConfig (buildOptions wco)) then getWorkerConfig env wco
    else emptyObject ].

(** ** The configuration assembler *)

Definition resolutionError : Exn :=
  JsError "Must either have a target from the context or a default project.".

(** Modelled from the spec: [generateBrowserWebpackConfigFromContext]
    is defined in ../utils/webpack-browser-config, which is not among
    the sources.  After section 4.1 of the spec it loads the workspace,
    fails with a resolution error when the target project cannot be
    determined (no explicit target and no default project in the
    workspace), and otherwise yields one configuration per compilation
    variant, each merged from the fragments of the generator. *)
Definition generateBrowserWebpackConfigFromContext
    (options : BrowserBuilderSchema) (context : BuilderContext)
    (generator : WebpackConfigOptions -> list Configuration) (w : World)
  : Result (Workspace * list Configuration) :=
  match workspaceFromPath w (normalize env (workspaceRoot context)) with
  | Throw e => Throw e
  | Ok workspace =>
      match ctx_target context, truthy (getDefaultProjectName workspace) with
      | None, false => Throw resolutionError
      | _, _ =>
          Ok (workspace,
              List.map (fun wco => webpackMerge env (generator wco))
                       (variants env workspace context options))
      end
  end.

Definition buildBrowserWebpackConfigFromContext
    (options : BrowserBuilderSchema) (context : BuilderContext) (w : World)
  : Result (Workspace * list Configuration) :=
  generateBrowserWebpackConfigFromContext options context
    (webpackPartialGenerator context) w.

(** ** The orchestrator *)

Section Orchestrator.

Variable options : BrowserBuilderSchema.
Variable context : BuilderContext.
Variable transforms : Transforms.
Variable w : World.

Definition root : Path := normalize env (workspaceRoot context).

Definition loggingFn : WebpackLoggingCallback :=
  match tf_logging transforms with
  | Some logging => logging
  | None => createBrowserLoggingCallback (isTrue (verbose options)) (logger context)
  end.

(** The caller's configuration transform, on every entry
    (index.ts, lines 154-162).  Every transform emits its first value in
    the order of the list; what they emit after it arrives as the world
    has it. *)
Definition transformConfigs (found : Workspace * list Configuration)
  : Observable (Workspace * list Configuration) :=
  let '(workspace, config) := found in
  match tf_config transforms with
  | Some configFn =>
      Rx.combineLatestOf ConfigFn (fun config => configFn workspace config) config
        (seq 0 (List.length config) ++ configArrival w)
      |> Rx.map (fun config => (workspace, config))
  | None => Rx.of_ (workspace, config)
  end.

(** The conditional clean step (lines 163-173). *)
Definition cleanOutput (found : Workspace * list Configuration)
  : Observable (Workspace * list Configuration) :=
  let '(workspace, config) := found in
  if isTrue (deleteOutputPath options) then
    Rx.fromCall
      (DeleteOutputDir (normalize env (workspaceRoot context))
                       (normalize env (outputPath options)))
      (deleteOutputDir w (normalize env (workspaceRoot context))
                         (normalize env (outputPath options)))
    |> Rx.map (fun _ : unit => (workspace, config))
  else Rx.of_ (workspace, config).

(** [buildEvents.every(r => r.success)] (line 198). *)
Definition aggregate (buildEvents : list BuilderOutput) : BuilderOutput :=
  {| success := forallb success buildEvents; out_outputPath := None |}.

(** The conditional service-worker step (lines 199-212): the augmenter
    is called, which may throw, and the two handlers of [then] are put on
    the promise that it returns. *)
Definition augment (projectRoot : Path) (buildEvent : BuilderOutput)
  : Observable BuilderOutput :=
  if success buildEvent && negb (isTrue (watch options))
     && isTrue (serviceWorker options) then
    Rx.fromCall
      (AugmentAppWithServiceWorker root projectRoot
         (resolve env root (normalize env (outputPath options)))
         (orElse (baseHref options) "/")
         (ngswConfigPath options))
      (augmentAppWithServiceWorker w root projectRoot
         (resolve env root (normalize env (outputPath options)))
         (orElse (baseHref options) "/")
         (ngswConfigPath options))
    |> Rx.concatMap (fun promise =>
         Rx.from (Rx.thenElse promise
                    (fun _ => {| success := true; out_outputPath := None |})
                    (fun _ => {| success := false; out_outputPath := None |})))
  else Rx.of_ buildEvent.

(** [{...event, outputPath: path.resolve(workspaceRoot, outputPath)}]
    (lines 213-217). *)
Definition withOutputPath (event : BuilderOutput) : BuilderOutput :=
  {| success := success event;
     out_outputPath :=
       Some (path_resolve env (workspaceRoot context) (outputPath options)) |}.

(** The caller's output transform (line 218). *)
Definition transformOutput (output : BuilderOutput) : Observable BuilderOutput :=
  match tf_output transforms with
  | Some outputFn => Rx.observe (OutputFn output) (outputFn output)
  | None => Rx.of_ output
  end.

(** The operators piped after the combined webpack runs
    (lines 190-219). *)
Definition postProcess (projectRoot : Path)
    (builds : Observable (list BuilderOutput)) : Observable BuilderOutput :=
  builds
  |> Rx.switchMap (fun buildEvents => Rx.of_ buildEvents)
  |> Rx.map aggregate
  |> Rx.concatMap (augment projectRoot)
  |> Rx.map withOutputPath
  |> Rx.concatMap transformOutput.

(** Project resolution, the webpack runs and what follows them
    (lines 174-220). *)
Definition compile (found : Workspace * list Configuration)
  : Observable BuilderOutput :=
  let '(workspace, configs) := found in
  let projectName :=
    match ctx_target context with
    | Some t => Some (project t)
    | None => getDefaultProjectName workspace
    end in
  match projectName with
  | Some name =>
      if truthyString name then
        match getProject workspace name with
        | Ok definition =>
            let projectRoot :=
              resolve env (ws_root workspace) (normalize env (proj_root definition)) in
            postProcess projectRoot
              (Rx.combineLatestOf RunWebpack
                 (fun config => runWebpack w config context loggingFn)
                 configs (arrival w))
        | Throw e => Rx.throwError e
        end
      else Rx.throwError resolutionError
  | None => Rx.throwError resolutionError
  end.

Definition buildWebpackBrowser : Observable BuilderOutput :=
  Rx.of_ tt
  |> Rx.switchMap (fun _ =>
       Rx.from (buildBrowserWebpackConfigFromContext options context w))
  |> Rx.switchMap transformConfigs
  |> Rx.switchMap cleanOutput
  |> Rx.switchMap compile.

End Orchestrator.

End Builder.

(** ** Properties of runs *)

(** Every event of a computation satisfies [P]. *)
Definition respects {A} (P : Event -> Prop) (m : Eff Event A) : Prop :=
  Forall P (snd m).

(** The events an observable causes itself satisfy [P], and it pushes
    only values that satisfy [Q]. *)
Definition delivers {A} (P : Event -> Prop) (Q : A -> Prop) (o : Observable A)
  : Prop :=
  forall next, (forall a, Q a -> respects P (next a)) -> respects P (o next).

(** The results handed to the subscriber in a trace, in order. *)
Definition results (trace : list Event) : list BuilderOutput :=
  flat_map (fun ev => match ev with
                      | Emit output => [output]
                      | _ => []
                      end) trace.

Definition fulfilled {A} (promise : Promise A) : bool :=
  match promise with
  | Ok _ => true
  | Throw _ => false
  end.

(** A configuration transform whose observables emit at most once. *)
Definition emitsOnce (transforms : Transforms) : Prop :=
  forall configFn workspace config values,
    tf_config transforms = Some configFn ->
    configFn workspace config = Ok values ->
    List.length (emitted values) <= 1.

Definition isAugmentation (ev : Event) : bool :=
  match ev with
  | AugmentAppWithServiceWorker _ _ _ _ _ => true
  | _ => false
  end.

Definition isDeletion (ev : Event) : bool :=
  match ev with
  | DeleteOutputDir _ _ => true
  | _ => false
  end.

Definition isEmission (ev : Event) : bool :=
  match ev with
  | Emit _ => true
  | _ => false
  end.

(** The events of the steps that follow the webpack runs. *)
Definition isPostProcessing (ev : Event) : bool :=
  match ev with
  | AugmentAppWithServiceWorker _ _ _ _ _ | OutputFn _ | Emit _ => true
  | _ => false
  end.

(** The position in the pipe of the stage that causes an event. *)
Definition stage (ev : Event) : nat :=
  match ev with
  | ConfigFn _ => 0
  | DeleteOutputDir _ _ => 1
  | RunWebpack _ => 2
  | AugmentAppWithServiceWorker _ _ _ _ _ | OutputFn _ | Emit _ => 3
  end.

(** A trace made of the calls of the configuration transform, at most
    one call of the output cleaner, the webpack runs and the events of
    the post-processing steps, in this order. *)
Definition shaped (env : Collaborators) (options : BrowserBuilderSchema)
    (context : BuilderContext) (transforms : Transforms) (trace : list Event)
  : Prop :=
  exists cs dels rs post,
    trace = (List.map ConfigFn cs ++ dels ++ List.map RunWebpack rs ++ post)%list
    /\ (dels = []
        \/ (isTrue (deleteOutputPath options) = true
            /\ dels = [DeleteOutputDir (normalize env (workspaceRoot context))
                                       (normalize env (outputPath options))]))
    /\ (tf_config transforms = None -> cs = [])
    /\ Forall (fun ev => isPostProcessing ev = true) post.

(** The levels at which a run of the logging callback has logged. *)
Definition levels (calls : list LogCall) : list Level := List.map fst calls.

(** ** A sample build *)

Module Sample.

Definition fragment (name : string) (wco : WebpackConfigOptions) : Configuration :=
  {| plugins := None; stats := None; settings := [(name, projectRoot wco)] |}.

Definition merge (fragments : list Configuration) : Configuration :=
  {| plugins :=
       Some (flat_map (fun c => match plugins c with Some p => p | None => [] end)
                      fragments);
     stats := Some "minimal";
     settings := flat_map settings fragments |}.

Definition env : Collaborators :=
  {| getCommonConfig := fragment "common";
     getBrowserConfig := fragment "browser";
     getStylesConfig := fragment "styles";
     getStatsConfig := fragment "stats";
     getAotConfig := fragment "aot";
     getNonAotConfig := fragment "jit";
     getWorkerConfig := fragment "worker";
     statsToString := fun json _ => Ok ("summary of " ++ json);
     statsWarningsToString := fun json _ => Ok ("warnings of " ++ json);
     statsErrorsToString := fun json _ => Ok ("errors of " ++ json);
     normalize := fun p => p;
     resolve := fun a b => a ++ "/" ++ b;
     path_resolve := fun a b => a ++ "/" ++ b;
     variants := fun workspace _ options =>
       [ {| wco_root := ws_root workspace;
            projectRoot := ws_root workspace ++ "/app";
            buildOptions := options |} ];
     webpackMerge := merge |}.

Definition workspace : Workspace :=
  {| ws_root := "/ws";
     getDefaultProjectName := Some "app";
     getProject := fun name => Ok {| proj_root := name |} |}.

(** A workspace with several projects and no default one. *)
Definition noDefault : Workspace :=
  {| ws_root := "/ws";
     getDefaultProjectName := None;
     getProject := fun name => Ok {| proj_root := name |} |}.

Definition quiet : LoggerApi :=
  {| info := fun _ => Ok tt; warn := fun _ => Ok tt; error := fun _ => Ok tt |}.

Definition context : BuilderContext :=
  {| workspaceRoot := "/ws";
     ctx_target := Some {| project := "app"; target := "build" |};
     analytics := None;
     builder := Some {| builderName := "@angular-devkit/build-angular:browser" |};
     logger := quiet |}.

Definition noTarget : BuilderContext :=
  {| workspaceRoot := "/ws";
     ctx_target := None;
     analytics := None;
     builder := None;
     logger := quiet |}.

Definition options : BrowserBuilderSchema :=
  {| outputPath := "dist";
     main := Some "src/main.ts";
     polyfills := None;
     aot := Some true;
     verbose := None;
     watch := None;
     serviceWorker := Some true;
     baseHref := None;
     ngswConfigPath := None;
     deleteOutputPath := Some true;
     webWorkerTsConfig := None |}.

Definition watching : BrowserBuilderSchema :=
  {| outputPath := "dist";
     main := Some "src/main.ts";
     polyfills := None;
     aot := Some true;
     verbose := None;
     watch := Some true;
     serviceWorker := Some true;
     baseHref := Some "/app/";
     ngswConfigPath := None;
     deleteOutputPath := None;
     webWorkerTsConfig := None |}.

Definition deployed : BrowserBuilderSchema :=
  {| outputPath := "dist";
     main := Some "src/main.ts";
     polyfills := Some "src/polyfills.ts";
     aot := None;
     verbose := Some true;
     watch := Some false;
     serviceWorker := Some true;
     baseHref := Some "/app/";
     ngswConfigPath := Some "ngsw-config.json";
     deleteOutputPath := None;
     webWorkerTsConfig := None |}.

Definition passed : BuilderOutput := {| success := true; out_outputPath := None |}.
Definition failed : BuilderOutput := {| success := false; out_outputPath := None |}.

(** Every webpack run succeeds, twice; the promise of the augmenter
    rejects. *)
Definition world : World :=
  {| workspaceFromPath := fun _ => Ok workspace;
     deleteOutputDir := fun _ _ => Ok tt;
     runWebpack := fun _ _ _ => Ok {| emitted := [passed; passed]; failure := None |};
     arrival := [0; 0];
     configArrival := [];
     augmentAppWithServiceWorker :=
       fun _ _ _ _ _ => Ok (Throw (JsError "ngsw-config.json not found")) |}.

(** The workspace has no default project; every collaborator succeeds. *)
Definition multiProject : World :=
  {| workspaceFromPath := fun _ => Ok noDefault;
     deleteOutputDir := fun _ _ => Ok tt;
     runWebpack := fun _ _ _ => Ok {| emitted := [passed]; failure := None |};
     arrival := [0];
     configArrival := [];
     augmentAppWithServiceWorker := fun _ _ _ _ _ => Ok (Ok tt) |}.

(** The call of the augmenter throws: the service-worker package cannot
    be resolved. *)
Definition crashing : World :=
  {| workspaceFromPath := fun _ => Ok workspace;
     deleteOutputDir := fun _ _ => Ok tt;
     runWebpack := fun _ _ _ => Ok {| emitted := [passed]; failure := None |};
     arrival := [0];
     configArrival := [];
     augmentAppWithServiceWorker :=
       fun _ _ _ _ _ =>
         Throw (JsError "Cannot find module '@angular/service-worker'") |}.

Definition noTransforms : Transforms :=
  {| tf_config := None; tf_output := None; tf_logging := None |}.

Definition report : Stats :=
  {| toJson := fun _ => Ok "{}";
     toString := fun _ => Ok "raw statistics";
     hasWarnings := Ok true;
     hasErrors := Ok false |}.

(** A statistics object whose [toJson] throws. *)
Definition broken : Stats :=
  {| toJson := fun _ => Throw (JsError "Cannot read property of undefined");
     toString := fun _ => Ok "raw statistics";
     hasWarnings := Ok false;
     hasErrors := Ok false |}.

(** A context with an analytics sink. *)
Definition tracked : BuilderContext :=
  {| workspaceRoot := "/ws";
     ctx_target := Some {| project := "app"; target := "build" |};
     analytics := Some (AnalyticsSink "ga");
     builder := Some {| builderName := "@angular-devkit/build-angular:browser" |};
     logger := quiet |}.

Definition tag (config : Configuration) : Configuration :=
  {| plugins := plugins config;
     stats := stats config;
     settings := ("mode", "production") :: settings config |}.

(** A configuration transform that emits once on every entry. *)
Definition tagging : Transforms :=
  {| tf_config := Some (fun _ config => Ok {| emitted := [tag config]; failure := None |});
     tf_output := None;
     tf_logging := None |}.

(** A configuration transform whose observable fails. *)
Definition rejecting : Transforms :=
  {| tf_config := Some (fun _ _ => Ok {| emitted := []; failure := Some (JsError "invalid configuration") |});
     tf_output := None;
     tf_logging := None |}.

(** A configuration transform whose call throws on a configuration
    without settings. *)
Definition throwing : Transforms :=
  {| tf_config :=
       Some (fun _ config =>
               match settings config with
               | [] => Throw (JsError "nothing to transform")
               | _ :: _ => Ok {| emitted := [tag config]; failure := None |}
               end);
     tf_output := None;
     tf_logging := None |}.

(** A configuration transform that emits the entry, then the tagged
    entry. *)
Definition repeating : Transforms :=
  {| tf_config := Some (fun _ config => Ok {| emitted := [config; tag config]; failure := None |});
     tf_output := None;
     tf_logging := None |}.

(** An output transform that fails. *)
Definition vetoing : Transforms :=
  {| tf_config := None;
     tf_output :=
       Some (fun _ => {| emitted := []; failure := Some (JsError "output rejected") |});
     tf_logging := None |}.

(** The output directory cannot be removed. *)
Definition readOnly : World :=
  {| workspaceFromPath := fun _ => Ok workspace;
     deleteOutputDir := fun _ _ => Throw (JsError "EACCES: permission denied");
     runWebpack := fun _ _ _ => Ok {| emitted := [passed]; failure := None |};
     arrival := [0];
     configArrival := [];
     augmentAppWithServiceWorker := fun _ _ _ _ _ => Ok (Ok tt) |}.

(** The call of the webpack runner throws on a configuration without
    settings. *)
Definition validating : World :=
  {| workspaceFromPath := fun _ => Ok workspace;
     deleteOutputDir := fun _ _ => Ok tt;
     runWebpack :=
       fun config _ _ =>
         match settings config with
         | [] => Throw (JsError "Invalid configuration object.")
         | _ :: _ => Ok {| emitted := [passed]; failure := None |}
         end;
     arrival := [0; 1];
     configArrival := [0];
     augmentAppWithServiceWorker := fun _ _ _ _ _ => Ok (Ok tt) |}.

(** The service worker is not requested. *)
Definition plain : BrowserBuilderSchema :=
  {| outputPath := "dist";
     main := Some "src/main.ts";
     polyfills := None;
     aot := None;
     verbose := None;
     watch := None;
     serviceWorker := None;
     baseHref := None;
     ngswConfigPath := None;
     deleteOutputPath := None;
     webWorkerTsConfig := None |}.

(** A workspace in which the project of the target is not defined. *)
Definition stale : Workspace :=
  {| ws_root := "/ws";
     getDefaultProjectName := Some "app";
     getProject := fun name => Throw (JsError ("Project does not exist.")) |}.

Definition configuration : Configuration :=
  {| plugins := None; stats := Some "minimal"; settings := [("entry", "main")] |}.

(** The webpack run fails after its first build event. *)
Definition interrupted : World :=
  {| workspaceFromPath := fun _ => Ok workspace;
     deleteOutputDir := fun _ _ => Ok tt;
     runWebpack :=
       fun _ _ _ =>
         Ok {| emitted := [passed]; failure := Some (JsError "watcher closed") |};
     arrival := [0; 0];
     configArrival := [];
     augmentAppWithServiceWorker := fun _ _ _ _ _ => Ok (Ok tt) |}.

(** A logger whose stream for warnings is closed. *)
Definition closed : LoggerApi :=
  {| info := fun _ => Ok tt;
     warn := fun _ => Throw (JsError "write EPIPE");
     error := fun _ => Ok tt |}.

End Sample.

(** ** The effect monad *)

Section EffLemmas.

Context {E A B : Type}.

Lemma fst_bind (m : Eff E A) (k : A -> Eff E B) :
  fst (bind m k) = match fst m with
                   | Ok a => fst (k a)
                   | Throw e => Throw e
                   end.
Proof.
  destruct m as [[a|e] t]; simpl; [destruct (k a)|]; reflexivity.
Qed.

Lemma snd_bind (m : Eff E A) (k : A -> Eff E B) :
  snd (bind m k) = match fst m with
                   | Ok a => (snd m ++ snd (k a))%list
                   | Throw _ => snd m
                   end.
Proof.
  destruct m as [[a|e] t]; simpl; [destruct (k a)|]; reflexivity.
Qed.

End EffLemmas.

Lemma fst_forEach {E A} (f g : A -> Eff E unit) (l : list A) :
  (forall a, fst (f a) = fst (g a)) -> fst (forEach f l) = fst (forEach g l).
Proof.
  intros Hfg. induction l as [|a l IH]; simpl; [reflexivity|].
  rewrite !fst_bind, Hfg, IH. reflexivity.
Qed.

Lemma fst_forEach_ok {E A} (f : A -> Eff E unit) (l : list A) :
  (forall a, fst (f a) = Ok tt) -> fst (forEach f l) = Ok tt.
Proof.
  intros Hf. induction l as [|a l IH]; simpl; [reflexivity|].
  rewrite fst_bind, Hf. exact IH.
Qed.

Lemma bind_throws {E A B} (m : Eff E A) (k : A -> Eff E B) (e : Exn) :
  fst (bind m k) = Throw e ->
  fst m = Throw e \/ exists a, fst m = Ok a /\ fst (k a) = Throw e.
Proof.
  rewrite fst_bind. destruct (fst m) as [a|e0]; intros H; [right; eauto|left; inversion H; reflexivity].
Qed.

(** Find the call at which a computation that throws has thrown. *)
Ltac throws H :=
  repeat match type of H with
         | fst (bind _ _) = Throw _ =>
             let a := fresh "a" in
             let Ha := fresh "Ha" in
             apply bind_throws in H; destruct H as [H|[a [Ha H]]];
             [|simpl in Ha]
         | fst (if ?b then _ else _) = Throw _ => destruct b
         | fst (ret _) = Throw _ => discriminate H
         | fst (pure _) = Throw _ => simpl in H
         | fst (call _ _) = Throw _ => simpl in H
         end.

Lemma callEach_cons {A B} (ev : A -> Event) (f : A -> Result B) (a : A)
    (l : list A) :
  Rx.callEach ev f (a :: l)
  = (b <- call (ev a) (f a) ;;
     bs <- Rx.callEach ev f l ;;
     ret (b :: bs))%eff.
Proof. reflexivity. Qed.

(** ** Invariants of the trace *)

Section Respects.

Variable P : Event -> Prop.

Lemma respects_bind {A B} (m : Eff Event A) (k : A -> Eff Event B) :
  respects P m -> (forall a, respects P (k a)) -> respects P (bind m k).
Proof.
  unfold respects. intros Hm Hk. rewrite snd_bind.
  destruct (fst m); [apply Forall_app; split|]; auto.
Qed.

Lemma respects_forEach {A} (f : A -> Eff Event unit) (l : list A) :
  (forall a, In a l -> respects P (f a)) -> respects P (forEach f l).
Proof.
  induction l as [|a l IH]; intros Hf; simpl.
  - constructor.
  - unfold respects. rewrite snd_bind. destruct (fst (f a)).
    + apply Forall_app. split; [apply Hf; now left|].
      apply IH. intros b Hb. apply Hf. now right.
    + apply Hf. now left.
Qed.

Lemma respects_tells (evs : list Event) :
  Forall P evs -> respects P (forEach tell evs).
Proof.
  intros H. apply respects_forEach. intros ev Hev.
  constructor; [|constructor]. rewrite Forall_forall in H. auto.
Qed.

Lemma delivers_of {A} (Q : A -> Prop) (a : A) :
  Q a -> delivers P Q (Rx.of_ a).
Proof. intros Ha next Hnext. apply Hnext, Ha. Qed.

Lemma delivers_throwError {A} (Q : A -> Prop) (e : Exn) :
  delivers P Q (Rx.throwError e).
Proof. intros next _. constructor. Qed.

Lemma delivers_from {A} (Q : A -> Prop) (r : Result A) :
  (forall a, r = Ok a -> Q a) -> delivers P Q (Rx.from r).
Proof.
  intros Hr next Hnext. unfold Rx.from, respects. rewrite snd_bind.
  destruct r as [a|e]; simpl; [apply Hnext, Hr; reflexivity|constructor].
Qed.

Lemma delivers_fromCall {A} (Q : A -> Prop) (ev : Event) (r : Result A) :
  P ev -> (forall a, r = Ok a -> Q a) -> delivers P Q (Rx.fromCall ev r).
Proof.
  intros Hev Hr next Hnext. unfold Rx.fromCall, respects. rewrite snd_bind.
  destruct r as [a|e]; simpl.
  - constructor; [exact Hev|]. apply Hnext, Hr. reflexivity.
  - constructor; [exact Hev|constructor].
Qed.

Lemma delivers_observe {A} (Q : A -> Prop) (ev : Event) (r : Recorded A) :
  P ev -> Forall Q (emitted r) -> delivers P Q (Rx.observe ev r).
Proof.
  intros Hev Hr next Hnext. unfold Rx.observe.
  apply respects_bind; [constructor; [exact Hev|constructor]|]. intros _.
  apply respects_bind.
  - apply respects_forEach. intros a Ha. apply Hnext.
    rewrite Forall_forall in Hr. auto.
  - intros _. destruct (failure r); constructor.
Qed.

Lemma respects_callEach {A B} (ev : A -> Event) (f : A -> Result B) (l : list A) :
  (forall a, P (ev a)) -> respects P (Rx.callEach ev f l).
Proof.
  intros Hev. induction l as [|a l IH]; [constructor|].
  rewrite callEach_cons.
  apply respects_bind; [constructor; [apply Hev|constructor]|]. intros b.
  apply respects_bind; [exact IH|]. intros bs. constructor.
Qed.

Lemma delivers_map {A B} (Q : A -> Prop) (R : B -> Prop) (f : A -> B)
    (o : Observable A) :
  delivers P Q o -> (forall a, Q a -> R (f a)) -> delivers P R (Rx.map f o).
Proof.
  intros Ho Hf next Hnext. apply Ho. intros a Ha. apply Hnext, Hf, Ha.
Qed.

Lemma delivers_concatMap {A B} (Q : A -> Prop) (R : B -> Prop)
    (f : A -> Observable B) (o : Observable A) :
  delivers P Q o -> (forall a, Q a -> delivers P R (f a)) ->
  delivers P R (Rx.concatMap f o).
Proof.
  intros Ho Hf next Hnext. apply Ho. intros a Ha. apply Hf; assumption.
Qed.

Lemma delivers_combineLatest {A} (sources : list (Recorded A))
    (order : list nat) :
  delivers P (fun _ => True) (Rx.combineLatest sources order).
Proof.
  intros next Hnext. unfold Rx.combineLatest.
  destruct (Rx.heard (List.map emitted sources) (List.map failure sources) order)
    as [prefix failed].
  apply respects_bind.
  - apply respects_forEach. intros a _. apply Hnext. exact I.
  - intros _. destruct failed; constructor.
Qed.

Lemma delivers_combineLatestOf {A B} (ev : A -> Event) (f : A -> Result (Recorded B))
    (l : list A) (order : list nat) :
  (forall a, P (ev a)) ->
  delivers P (fun _ => True) (Rx.combineLatestOf ev f l order).
Proof.
  intros Hev next Hnext. unfold Rx.combineLatestOf.
  apply respects_bind; [apply respects_callEach, Hev|]. intros sources.
  apply delivers_combineLatest, Hnext.
Qed.

End Respects.

(** ** Invariants of a whole run

    An invariant of the trace holds of a run of the orchestrator as soon
    as it holds of the calls of each stage; only the service-worker step
    and the values handed on after it differ from claim to claim. *)

Section RunInvariant.

Variable env : Collaborators.
Variable options : BrowserBuilderSchema.
Variable context : BuilderContext.
Variable transforms : Transforms.
Variable w : World.

Variable P : Event -> Prop.
Variable Q : BuilderOutput -> Prop.

Hypothesis P_configFn : forall config, P (ConfigFn config).
Hypothesis P_delete : forall r p, P (DeleteOutputDir r p).
Hypothesis P_runWebpack : forall config, P (RunWebpack config).
Hypothesis augment_delivers :
  forall projectRoot buildEvent,
    delivers P Q (augment env options context w projectRoot buildEvent).
Hypothesis P_outputFn :
  forall event, Q event -> P (OutputFn (withOutputPath env options context event)).
Hypothesis P_emit :
  forall event, Q event -> tf_output transforms = None ->
                P (Emit (withOutputPath env options context event)).
Hypothesis P_emit_transformed :
  forall output, tf_output transforms <> None -> P (Emit output).

Lemma transformOutput_delivers (event : BuilderOutput) :
  Q event ->
  delivers P (fun output => P (Emit output))
           (transformOutput transforms (withOutputPath env options context event)).
Proof.
  intros HQ. unfold transformOutput.
  pose proof P_emit as Hdirect. pose proof P_emit_transformed as Hother.
  destruct (tf_output transforms) as [outputFn|].
  - apply delivers_observe; [apply P_outputFn, HQ|].
    apply Forall_forall. intros output _.
    apply Hother. discriminate.
  - apply delivers_of. apply Hdirect; [exact HQ|reflexivity].
Qed.

Lemma postProcess_delivers (projectRoot : Path)
    (builds : Observable (list BuilderOutput)) :
  delivers P (fun _ => True) builds ->
  delivers P (fun output => P (Emit output))
           (postProcess env options context transforms w projectRoot builds).
Proof.
  intros Hbuilds. unfold postProcess, Rx.switchMap.
  apply delivers_concatMap
    with (Q := fun v => exists event, Q event
                                      /\ v = withOutputPath env options context event).
  - apply delivers_map with (Q := Q); [|intros a Ha; exists a; auto].
    apply delivers_concatMap with (Q := fun _ => True);
      [|intros a _; apply augment_delivers].
    apply delivers_map with (Q := fun _ => True); [|auto].
    apply delivers_concatMap with (Q := fun _ => True); [exact Hbuilds|].
    intros a _. apply delivers_of. exact I.
  - intros v [event [HQ ->]]. apply transformOutput_delivers, HQ.
Qed.

Lemma compile_delivers (found : Workspace * list Configuration) :
  delivers P (fun output => P (Emit output))
           (compile env options context transforms w found).
Proof.
  destruct found as [workspace configs]. unfold compile.
  destruct (match ctx_target context with
            | Some t => Some (project t)
            | None => getDefaultProjectName workspace
            end) as [name|]; [|apply delivers_throwError].
  destruct (truthyString name); [|apply delivers_throwError].
  destruct (getProject workspace name) as [definition|e];
    [|apply delivers_throwError].
  apply postProcess_delivers. apply delivers_combineLatestOf, P_runWebpack.
Qed.

Lemma transformConfigs_delivers (found : Workspace * list Configuration) :
  delivers P (fun _ => True) (transformConfigs transforms w found).
Proof.
  destruct found as [workspace config]. unfold transformConfigs.
  destruct (tf_config transforms) as [configFn|]; [|apply delivers_of; exact I].
  apply delivers_map with (Q := fun _ => True); [|auto].
  apply delivers_combineLatestOf, P_configFn.
Qed.

Lemma cleanOutput_delivers (found : Workspace * list Configuration) :
  delivers P (fun _ => True) (cleanOutput env options context w found).
Proof.
  destruct found as [workspace config]. unfold cleanOutput.
  destruct (isTrue (deleteOutputPath options)); [|apply delivers_of; exact I].
  apply delivers_map with (Q := fun _ => True); [|auto].
  apply delivers_fromCall; [apply P_delete|auto].
Qed.

Lemma buildWebpackBrowser_respects :
  respects P (Rx.subscribe (buildWebpackBrowser env options context transforms w)).
Proof.
  unfold Rx.subscribe.
  assert (H : delivers P (fun output => P (Emit output))
                       (buildWebpackBrowser env options context transforms w)).
  { unfold buildWebpackBrowser, Rx.switchMap.
    apply delivers_concatMap with (Q := fun _ => True);
      [|intros a _; apply compile_delivers].
    apply delivers_concatMap with (Q := fun _ => True);
      [|intros a _; apply cleanOutput_delivers].
    apply delivers_concatMap with (Q := fun _ => True);
      [|intros a _; apply transformConfigs_delivers].
    apply delivers_concatMap with (Q := fun _ => True);
      [apply delivers_of; exact I|].
    intros _ _. apply delivers_from. auto. }
  apply H. intros output Hout. constructor; [exact Hout|constructor].
Qed.

End RunInvariant.

(** ** The combined webpack runs *)

Lemma update_length {A} (i : nat) (a : A) (l : list A) :
  List.length (Rx.update i a l) = List.length l.
Proof.
  revert i. induction l as [|x l IH]; intros [|i]; simpl; auto.
Qed.

Lemma allLatest_length {A} (latest : list (option A)) (array : list A) :
  Rx.allLatest latest = Some array -> List.length array = List.length latest.
Proof.
  revert array. induction latest as [|[a|] latest IH]; simpl; intros array H.
  - inversion H. reflexivity.
  - destruct (Rx.allLatest latest) as [l|]; [|discriminate].
    inversion H. simpl. f_equal. apply IH. reflexivity.
  - discriminate.
Qed.

(** Every array that [combineLatest] emits holds one value per source. *)
Lemma combine_one_per_source {A} (order : list nat) (pending : list (list A))
    (latest : list (option A)) :
  Forall (fun array => List.length array = List.length latest)
         (Rx.combine pending latest order).
Proof.
  revert pending latest. induction order as [|i order IH]; intros pending latest.
  - constructor.
  - simpl. destruct (nth_error pending i) as [[|a queue]|]; try apply IH.
    destruct (Rx.allLatest (Rx.update i (Some a) latest)) as [array|] eqn:Hall.
    + constructor.
      * rewrite (allLatest_length _ _ Hall). apply update_length.
      * rewrite <- (update_length i (Some a) latest). apply IH.
    + rewrite <- (update_length i (Some a) latest). apply IH.
Qed.

Lemma update_at_length {A} (n : nat) (l1 l2 : list A) (x y : A) :
  n = List.length l1 ->
  Rx.update n x (l1 ++ y :: l2) = (l1 ++ x :: l2)%list.
Proof.
  intros ->. induction l1 as [|a l1 IH]; simpl; [reflexivity|]. now rewrite IH.
Qed.

Lemma allLatest_known {A} (known : list A) (rest : list (option A)) :
  Rx.allLatest (List.map Some known ++ rest)
  = match Rx.allLatest rest with
    | Some l => Some (known ++ l)%list
    | None => None
    end.
Proof.
  induction known as [|a known IH]; simpl.
  - destruct (Rx.allLatest rest); reflexivity.
  - rewrite IH. destruct (Rx.allLatest rest); reflexivity.
Qed.

Lemma combine_once_from {A} (rest known : list A) :
  rest <> [] ->
  Rx.combine (List.map (fun _ => []) known ++ List.map (fun a => [a]) rest)
             (List.map Some known ++ List.map (fun _ => None) rest)
             (seq (List.length known) (List.length rest))
  = [(known ++ rest)%list].
Proof.
  revert known. induction rest as [|a rest IH]; intros known Hrest; [contradiction|].
  simpl.
  rewrite nth_error_app2 by (rewrite length_map; lia).
  rewrite length_map, Nat.sub_diag. simpl.
  rewrite !update_at_length by (rewrite length_map; reflexivity).
  rewrite allLatest_known.
  destruct rest as [|b rest].
  - reflexivity.
  - change (Rx.allLatest (Some a :: List.map (fun _ => None) (b :: rest)))
      with (@None (list A)).
    specialize (IH (known ++ [a])%list ltac:(discriminate)).
    rewrite !map_app, <- !app_assoc, length_app, Nat.add_1_r in IH. simpl in IH.
    exact IH.
Qed.

(** Sources that emit once each, in the order of their positions, make
    [combineLatest] emit once: the list of their values.  This is how the
    configuration transform is combined. *)
Lemma combine_once {A} (l : list A) :
  l <> [] ->
  Rx.combine (List.map (fun a => [a]) l)
             (List.map (fun _ => None) (List.map (fun a => [a]) l))
             (seq 0 (List.length l))
  = [l].
Proof.
  intros H. rewrite map_map. exact (combine_once_from l [] H).
Qed.

(** ** One array of build events through the operators *)

Lemma postProcess_one (env : Collaborators) (options : BrowserBuilderSchema)
    (context : BuilderContext) (transforms : Transforms) (w : World)
    (projectRoot : Path) (buildEvents : list BuilderOutput) :
  tf_output transforms = None ->
  Rx.subscribe (postProcess env options context transforms w projectRoot
                            (Rx.emits [buildEvents]))
  = if forallb success buildEvents && negb (isTrue (watch options))
       && isTrue (serviceWorker options)
    then
      match augmentAppWithServiceWorker w
              (root env context) projectRoot
              (resolve env (root env context) (normalize env (outputPath options)))
              (orElse (baseHref options) "/") (ngswConfigPath options)
      with
      | Ok promise =>
          (Ok tt,
           [ AugmentAppWithServiceWorker
               (root env context) projectRoot
               (resolve env (root env context) (normalize env (outputPath options)))
               (orElse (baseHref options) "/") (ngswConfigPath options);
             Emit {| success := fulfilled promise;
                     out_outputPath :=
                       Some (path_resolve env (workspaceRoot context)
                                          (outputPath options)) |} ])
      | Throw e =>
          (Throw e,
           [ AugmentAppWithServiceWorker
               (root env context) projectRoot
               (resolve env (root env context) (normalize env (outputPath options)))
               (orElse (baseHref options) "/") (ngswConfigPath options) ])
      end
    else (Ok tt,
          [ Emit {| success := forallb success buildEvents;
                    out_outputPath :=
                      Some (path_resolve env (workspaceRoot context)
                                         (outputPath options)) |} ]).
Proof.
  intros Hout.
  unfold Rx.subscribe, postProcess, Rx.switchMap, Rx.concatMap, Rx.map, Rx.emits,
    Rx.of_, transformOutput, augment.
  rewrite Hout. simpl.
  destruct (forallb success buildEvents && negb (isTrue (watch options))
            && isTrue (serviceWorker options)); [|reflexivity].
  unfold Rx.concatMap, Rx.fromCall, Rx.from, Rx.thenElse, Rx.of_.
  destruct (augmentAppWithServiceWorker w _ _ _ _ _) as [[[]|e]|e]; reflexivity.
Qed.

(** ** The service-worker step *)

Lemma orElse_default (o : option string) (d : string) :
  truthy o = false -> orElse o d = d.
Proof. destruct o as [[|c s]|]; simpl; intros H; [reflexivity|discriminate|reflexivity]. Qed.

Lemma orElse_configured (s d : string) :
  s <> "" -> orElse (Some s) d = s.
Proof. destruct s; simpl; intros H; [contradiction H|]; reflexivity. Qed.

(** ** Calls, sources and cycles *)

Lemma forEach_tell (evs : list Event) : forEach tell evs = (Ok tt, evs).
Proof.
  induction evs as [|ev evs IH]; simpl; [reflexivity|]. rewrite IH. reflexivity.
Qed.

Lemma forEach_one {E A} (f : A -> Eff E unit) (a : A) : forEach f [a] = f a.
Proof.
  simpl. destruct (f a) as [[[]|e] t]; simpl; [rewrite app_nil_r|]; reflexivity.
Qed.

Lemma bind_ext {E A B} (m : Eff E A) (k1 k2 : A -> Eff E B) :
  (forall a, k1 a = k2 a) -> bind m k1 = bind m k2.
Proof.
  intros H. destruct m as [[a|e] t]; simpl; [rewrite H|]; reflexivity.
Qed.

Lemma bind_pure_ok {E A B} (a : A) (k : A -> Eff E B) :
  bind (pure (Ok a)) k = k a.
Proof. simpl. destruct (k a). reflexivity. Qed.

Lemma bind_value {E A B C} (a : A) (b : B) (t : list E)
    (k1 : A -> Eff E C) (k2 : B -> Eff E C) :
  k1 a = k2 b -> bind (Ok a, t) k1 = bind (Ok b, t) k2.
Proof. intros H. simpl. rewrite H. reflexivity. Qed.

Lemma bind_ok {E A B} (a : A) (t : list E) (k : A -> Eff E B) :
  bind (Ok a, t) k = (fst (k a), (t ++ snd (k a))%list).
Proof. simpl. destruct (k a). reflexivity. Qed.

Lemma forEach_ext {E A} (f g : A -> Eff E unit) (l : list A) :
  (forall a, f a = g a) -> forEach f l = forEach g l.
Proof.
  intros H. induction l as [|a l IH]; simpl; [reflexivity|].
  rewrite H, IH. reflexivity.
Qed.

(** When every call returns, all calls are made, in order. *)
Lemma callEach_ok {A B} (ev : A -> Event) (f : A -> Result B) (g : A -> B)
    (l : list A) :
  (forall a, In a l -> f a = Ok (g a)) ->
  Rx.callEach ev f l = (Ok (List.map g l), List.map ev l).
Proof.
  induction l as [|a l IH]; intros Hf; [reflexivity|].
  rewrite callEach_cons, (Hf a (or_introl eq_refl)).
  rewrite IH by (intros b Hb; apply Hf; now right).
  simpl. rewrite app_nil_r. reflexivity.
Qed.

(** The calls stop at the first one that throws. *)
Lemma callEach_throws {A B} (ev : A -> Event) (f : A -> Result B)
    (before after : list A) (c : A) (e : Exn) :
  (forall b, In b before -> exists v, f b = Ok v) ->
  f c = Throw e ->
  Rx.callEach ev f (before ++ c :: after) = (Throw e, List.map ev (before ++ [c])).
Proof.
  intros Hbefore Hc. induction before as [|b before IH].
  - simpl. rewrite Hc. reflexivity.
  - change (((b :: before) ++ c :: after)%list)
      with (b :: (before ++ c :: after)%list).
    rewrite callEach_cons.
    destruct (Hbefore b (or_introl eq_refl)) as [v Hv]. rewrite Hv.
    rewrite IH by (intros x Hx; apply Hbefore; now right). reflexivity.
Qed.

(** What a run of the calls has done, whatever they answer. *)
Lemma callEach_inv {A B} (ev : A -> Event) (f : A -> Result B) (l : list A) :
  exists called rest,
    l = (called ++ rest)%list
    /\ snd (Rx.callEach ev f l) = List.map ev called
    /\ (forall bs, fst (Rx.callEach ev f l) = Ok bs ->
                   rest = [] /\ Forall2 (fun a b => f a = Ok b) l bs)
    /\ (forall e, fst (Rx.callEach ev f l) = Throw e ->
                  exists before c,
                    called = (before ++ [c])%list /\ f c = Throw e
                    /\ forall b, In b before -> exists v, f b = Ok v).
Proof.
  induction l as [|a l IH].
  - exists [], []. simpl. split; [reflexivity|]. split; [reflexivity|].
    split; [|discriminate].
    intros bs H. inversion H. split; [reflexivity|constructor].
  - rewrite callEach_cons. destruct (f a) as [b|e0] eqn:Ha.
    + destruct IH as [called [rest [Hl [Htrace [Hok Hthrow]]]]].
      exists (a :: called), rest.
      destruct (Rx.callEach ev f l) as [[bs|e1] t] eqn:Hrun; simpl in *.
      * rewrite app_nil_r. subst t. split; [now rewrite Hl|]. split; [reflexivity|].
        split; [|discriminate].
        intros bs' H. inversion H. subst bs'.
        destruct (Hok bs eq_refl) as [Hrest Hall].
        split; [exact Hrest|]. constructor; assumption.
      * subst t. split; [now rewrite Hl|]. split; [reflexivity|].
        split; [discriminate|].
        intros e H. inversion H. subst e1.
        destruct (Hthrow e eq_refl) as [before [c [Hcalled [Hc Hbefore]]]].
        exists (a :: before), c. rewrite Hcalled. split; [reflexivity|].
        split; [exact Hc|].
        intros x [<-|Hx]; [exists b; exact Ha|apply Hbefore, Hx].
    + exists [a], l. simpl. split; [reflexivity|]. split; [reflexivity|].
      split; [discriminate|].
      intros e H. inversion H. subst e0.
      exists [], a. split; [reflexivity|]. split; [exact Ha|]. intros x [].
Qed.

Lemma bind_done {E} (m : Eff E unit) : bind m (fun _ => ret tt) = m.
Proof. destruct m as [[[]|e] t]; simpl; [rewrite app_nil_r|]; reflexivity. Qed.

(** Sources that do not fail are heard to the end. *)
Lemma heard_all {A} (order : list nat) (pending : list (list A))
    (failures : list (option Exn)) :
  Forall (fun failed => failed = None) failures ->
  Rx.heard pending failures order = (order, None).
Proof.
  intros Hnone. revert pending.
  induction order as [|i order IH]; intros pending; simpl; [reflexivity|].
  destruct (nth_error pending i) as [[|a queue]|]; rewrite ?IH; try reflexivity.
  destruct (nth_error failures i) as [[e|]|] eqn:Hnth; rewrite ?IH; try reflexivity.
  apply nth_error_In in Hnth. rewrite Forall_forall in Hnone.
  specialize (Hnone _ Hnth). discriminate.
Qed.

Lemma combine_nil {A} (latest : list (option A)) (order : list nat) :
  Rx.combine [] latest order = [].
Proof.
  induction order as [|i order IH]; simpl; [reflexivity|].
  destruct i; exact IH.
Qed.

(** [combineLatest] of sources that do not fail pushes the combined
    arrays, one after the other. *)
Lemma combineLatest_streams {A B} (stream : A -> list B) (l : list A)
    (order : list nat) (next : list B -> Eff Event unit) :
  Rx.combineLatest
    (List.map (fun a => {| emitted := stream a; failure := None |}) l) order next
  = forEach next (Rx.combine (List.map stream l)
                             (List.map (fun _ => None) (List.map stream l))
                             order).
Proof.
  unfold Rx.combineLatest. rewrite !map_map. cbn [emitted failure].
  rewrite heard_all by (apply Forall_forall; intros failed Hin;
                        apply in_map_iff in Hin; destruct Hin as [a [<- _]];
                        reflexivity).
  rewrite bind_done. reflexivity.
Qed.

(** Sources that emit at most once make [combineLatest] emit at most
    once, in whatever order they arrive. *)
Lemma update_Forall2 {A B} (R : A -> B -> Prop) (i : nat) (a : A) (b : B)
    (l : list A) (l' : list B) :
  Forall2 R l l' -> R a b -> Forall2 R (Rx.update i a l) (Rx.update i b l').
Proof.
  intros H Hab. revert i. induction H as [|x y l l' Hxy H IH]; intros i.
  - destruct i; constructor.
  - destruct i; simpl; constructor; auto.
Qed.

Lemma spent_sources_are_silent {A} (pending : list (list A))
    (latest : list (option A)) (order : list nat) :
  Forall (fun queue => queue = []) pending ->
  Rx.combine pending latest order = [].
Proof.
  intros Hspent. induction order as [|i order IH]; simpl; [reflexivity|].
  destruct (nth_error pending i) as [[|a queue]|] eqn:Hnth; try exact IH.
  apply nth_error_In in Hnth. rewrite Forall_forall in Hspent.
  specialize (Hspent _ Hnth). discriminate.
Qed.

Lemma all_latest_means_spent {A} (pending : list (list A))
    (latest : list (option A)) (array : list A) :
  Forall2 (fun queue known => queue = [] \/ known = None) pending latest ->
  Rx.allLatest latest = Some array ->
  Forall (fun queue => queue = []) pending.
Proof.
  intros H. revert array.
  induction H as [|queue known pending latest Hone H IH]; intros array Hall;
    [constructor|].
  simpl in Hall. destruct known as [a|]; [|discriminate].
  destruct (Rx.allLatest latest) as [l|] eqn:Hrest; [|discriminate].
  constructor; [destruct Hone as [Hq|Hk]; [exact Hq|discriminate]|].
  apply (IH l). reflexivity.
Qed.

Lemma combine_at_most_once {A} (order : list nat) (pending : list (list A))
    (latest : list (option A)) :
  Forall2 (fun queue known => queue = [] \/ (List.length queue <= 1 /\ known = None))
          pending latest ->
  List.length (Rx.combine pending latest order) <= 1.
Proof.
  revert pending latest.
  induction order as [|i order IH]; intros pending latest Hinv; simpl; [lia|].
  destruct (nth_error pending i) as [[|a queue]|] eqn:Hnth; try (apply IH, Hinv).
  assert (Hqueue : queue = []).
  { clear IH. revert i Hnth.
    induction Hinv as [|q k pending latest Hone Hinv IH]; intros i Hnth;
      [destruct i; discriminate|].
    destruct i as [|i]; [|apply (IH i Hnth)].
    simpl in Hnth. inversion Hnth. subst q.
    destruct Hone as [Hq|[Hlen _]]; [discriminate|].
    destruct queue; [reflexivity|simpl in Hlen; lia]. }
  subst queue.
  assert (Hinv' : Forall2 (fun queue known =>
                             queue = [] \/ (List.length queue <= 1 /\ known = None))
                          (Rx.update i [] pending) (Rx.update i (Some a) latest))
    by (apply update_Forall2; [exact Hinv|now left]).
  destruct (Rx.allLatest (Rx.update i (Some a) latest)) as [array|] eqn:Hall;
    [|apply IH, Hinv'].
  simpl. rewrite spent_sources_are_silent; [simpl; lia|].
  apply (all_latest_means_spent _ (Rx.update i (Some a) latest) array);
    [|exact Hall].
  clear -Hinv'. induction Hinv' as [|q k p l Hone H IH]; constructor; [|exact IH].
  destruct Hone as [Hq|[_ Hk]]; auto.
Qed.

Lemma combine_once_more {A} (l : list A) (extra : list nat) :
  l <> [] ->
  Rx.combine (List.map (fun a => [a]) l)
             (List.map (fun _ => None) (List.map (fun a => [a]) l))
             (seq 0 (List.length l) ++ extra)
  = [l].
Proof.
  intros Hl.
  pose proof (combine_once l Hl) as Honce.
  assert (Hmost : List.length
                    (Rx.combine (List.map (fun a => [a]) l)
                                (List.map (fun _ => None) (List.map (fun a => [a]) l))
                                (seq 0 (List.length l) ++ extra)) <= 1).
  { apply combine_at_most_once. rewrite map_map.
    clear. induction l as [|a l IH]; simpl; constructor; [|exact IH].
    right. split; [simpl; lia|reflexivity]. }
  assert (Hprefix : forall (order more : list nat) (pending : list (list A))
                           (latest : list (option A)),
             exists rest,
               Rx.combine pending latest (order ++ more)
               = (Rx.combine pending latest order ++ rest)%list).
  { induction order as [|i order IH]; intros more pending latest.
    - exists (Rx.combine pending latest more). reflexivity.
    - simpl. destruct (nth_error pending i) as [[|a queue]|]; try apply IH.
      destruct (Rx.allLatest (Rx.update i (Some a) latest)); [|apply IH].
      destruct (IH more (Rx.update i queue pending) (Rx.update i (Some a) latest))
        as [rest Hrest].
      exists rest. rewrite Hrest. reflexivity. }
  destruct (Hprefix (seq 0 (List.length l)) extra
                    (List.map (fun a => [a]) l)
                    (List.map (fun _ => None) (List.map (fun a => [a]) l)))
    as [rest Hrest].
  rewrite Hrest, Honce in *. destruct rest; [reflexivity|simpl in Hmost; lia].
Qed.

(** ** The compile stage and its cycles *)

(** The stage for a project that resolves. *)
Lemma compile_resolved (env : Collaborators) (options : BrowserBuilderSchema)
    (context : BuilderContext) (transforms : Transforms) (w : World)
    (workspace : Workspace) (configs : list Configuration)
    (name : string) (definition : ProjectDefinition)
    (next : BuilderOutput -> Eff Event unit) :
  match ctx_target context with
  | Some t => Some (project t)
  | None => getDefaultProjectName workspace
  end = Some name ->
  name <> "" ->
  getProject workspace name = Ok definition ->
  compile env options context transforms w (workspace, configs) next
  = postProcess env options context transforms w
      (resolve env (ws_root workspace) (normalize env (proj_root definition)))
      (Rx.combineLatestOf RunWebpack
         (fun config =>
            runWebpack w config context (loggingFn env options context transforms))
         configs (arrival w))
      next.
Proof.
  intros Hname Hnonempty Hproject. unfold compile. rewrite Hname.
  destruct name as [|c name]; [contradiction Hnonempty; reflexivity|].
  simpl truthyString. cbv iota. rewrite Hproject. reflexivity.
Qed.

(** Arrays of build events are processed one after the other, each as if
    it were alone, until the processing of one of them throws. *)
Lemma postProcess_emits (env : Collaborators) (options : BrowserBuilderSchema)
    (context : BuilderContext) (transforms : Transforms) (w : World)
    (projectRoot : Path) (arrays : list (list BuilderOutput)) :
  Rx.subscribe (postProcess env options context transforms w projectRoot
                            (Rx.emits arrays))
  = forEach (fun buildEvents =>
               Rx.subscribe (postProcess env options context transforms w
                                         projectRoot (Rx.emits [buildEvents])))
            arrays.
Proof.
  unfold Rx.subscribe, postProcess, Rx.switchMap, Rx.concatMap, Rx.map, Rx.emits,
    Rx.of_.
  apply forEach_ext. intros buildEvents. rewrite forEach_one. reflexivity.
Qed.

(** The stage when every call of the webpack runner returns its
    observable. *)
Lemma compile_cycles (env : Collaborators) (options : BrowserBuilderSchema)
    (context : BuilderContext) (transforms : Transforms) (w : World)
    (workspace : Workspace) (configs : list Configuration)
    (name : string) (definition : ProjectDefinition)
    (source : Configuration -> Recorded BuilderOutput) :
  match ctx_target context with
  | Some t => Some (project t)
  | None => getDefaultProjectName workspace
  end = Some name ->
  name <> "" ->
  getProject workspace name = Ok definition ->
  (forall config,
      In config configs ->
      runWebpack w config context (loggingFn env options context transforms)
      = Ok (source config)) ->
  let sources := List.map source configs in
  let hearing :=
    Rx.heard (List.map emitted sources) (List.map failure sources) (arrival w) in
  Rx.subscribe (compile env options context transforms w (workspace, configs))
  = (forEach tell (List.map RunWebpack configs) ;;;
     Rx.subscribe
       (postProcess env options context transforms w
          (resolve env (ws_root workspace) (normalize env (proj_root definition)))
          (Rx.emits (Rx.combine (List.map emitted sources)
                                (List.map (fun _ => None) (List.map emitted sources))
                                (fst hearing)))) ;;;
     match snd hearing with
     | Some e => throw e
     | None => ret tt
     end)%eff.
Proof.
  intros Hname Hnonempty Hproject Hruns sources hearing. unfold Rx.subscribe at 1.
  rewrite (compile_resolved env options context transforms w workspace configs
                            name definition _ Hname Hnonempty Hproject).
  unfold postProcess at 1. unfold Rx.switchMap, Rx.concatMap, Rx.map.
  unfold Rx.combineLatestOf.
  rewrite (callEach_ok RunWebpack _ source configs Hruns).
  rewrite forEach_tell. apply bind_value.
  unfold Rx.combineLatest. cbv zeta. fold sources. fold hearing.
  destruct hearing as [prefix failed]. reflexivity.
Qed.

Lemma results_app (t1 t2 : list Event) :
  results (t1 ++ t2) = (results t1 ++ results t2)%list.
Proof. apply flat_map_app. Qed.

Lemma results_of_calls {A} (ev : A -> Event) (l : list A) :
  (forall a, isEmission (ev a) = false) -> results (List.map ev l) = [].
Proof.
  intros Hev. induction l as [|a l IH]; [reflexivity|].
  simpl. specialize (Hev a). destruct (ev a); try discriminate; exact IH.
Qed.



(** The only call of the service-worker step is that of the augmenter,
    made when the step applies. *)
Lemma augment_delivers_calls (env : Collaborators) (options : BrowserBuilderSchema)
    (context : BuilderContext) (w : World) (P : Event -> Prop)
    (projectRoot : Path) (buildEvent : BuilderOutput) :
  (success buildEvent && negb (isTrue (watch options))
   && isTrue (serviceWorker options) = true ->
   P (AugmentAppWithServiceWorker
        (root env context) projectRoot
        (resolve env (root env context) (normalize env (outputPath options)))
        (orElse (baseHref options) "/") (ngswConfigPath options))) ->
  delivers P (fun _ => True) (augment env options context w projectRoot buildEvent).
Proof.
  intros Hcall. unfold augment.
  destruct (success buildEvent && negb (isTrue (watch options))
            && isTrue (serviceWorker options)).
  - apply delivers_concatMap with (Q := fun _ => True).
    + apply delivers_fromCall; [apply Hcall; reflexivity|auto].
    + intros promise _. apply delivers_from. auto.
  - apply delivers_of. exact I.
Qed.

(** ** The model on the sample build *)

Example split_builder_name :
  split ":"%char "@angular-devkit/build-angular:browser"
  = ["@angular-devkit/build-angular"; "browser"].
Proof. reflexivity. Qed.

Example analytics_fragment_with_sink :
  getAnalyticsConfig
    {| wco_root := "/ws"; projectRoot := "/ws/app"; buildOptions := Sample.options |}
    {| workspaceRoot := "/ws";
       ctx_target := None;
       analytics := Some (AnalyticsSink "ga");
       builder := Some {| builderName := "@angular-devkit/build-angular:browser" |};
       logger := Sample.quiet |}
  = {| plugins := Some [NgBuildAnalyticsPlugin "/ws/app" (AnalyticsSink "ga")
                                               (Some "browser")];
       stats := None;
       settings := [] |}.
Proof. reflexivity. Qed.

Example combine_two_sources :
  Rx.combine [[Sample.passed; Sample.failed]; [Sample.passed]] [None; None] [0; 1; 0]
  = [[Sample.passed; Sample.passed]; [Sample.failed; Sample.passed]].
Proof. reflexivity. Qed.

Example aggregate_with_one_failure :
  success (aggregate [Sample.passed; Sample.failed; Sample.passed]) = false.
Proof. reflexivity. Qed.

Example run_with_output_transform :
  Rx.subscribe
    (buildWebpackBrowser Sample.env Sample.deployed Sample.context
       {| tf_config := Some (fun _ config => Ok {| emitted := [config]; failure := None |});
          tf_output := Some (fun output => {| emitted := [output]; failure := None |});
          tf_logging := None |}
       Sample.multiProject)
  = (Ok tt,
     [ ConfigFn (Sample.merge
                   (webpackPartialGenerator Sample.env Sample.context
                      {| wco_root := "/ws"; projectRoot := "/ws/app";
                         buildOptions := Sample.deployed |}));
       RunWebpack (Sample.merge
                     (webpackPartialGenerator Sample.env Sample.context
                        {| wco_root := "/ws"; projectRoot := "/ws/app";
                           buildOptions := Sample.deployed |}));
       AugmentAppWithServiceWorker "/ws" "/ws/app" "/ws/dist" "/app/"
                                   (Some "ngsw-config.json");
       OutputFn {| success := true; out_outputPath := Some "/ws/dist" |};
       Emit {| success := true; out_outputPath := Some "/ws/dist" |} ]).
Proof. reflexivity. Qed.

(** A configuration transform that emits twice makes the clean step and
    the webpack runs happen twice. *)
Example run_with_repeating_transform :
  List.map stage
    (snd (Rx.subscribe
            (buildWebpackBrowser Sample.env Sample.options Sample.context
                                 Sample.repeating Sample.validating)))
  = [0; 1; 2; 3; 3; 1; 2; 3; 3].
Proof. reflexivity. Qed.

(** A webpack run that fails after a build event: the result of that
    event has been handed over when the operation fails. *)
Example run_with_interrupted_webpack :
  Rx.subscribe
    (buildWebpackBrowser Sample.env Sample.plain Sample.context
                         Sample.noTransforms Sample.interrupted)
  = (Throw (JsError "watcher closed"),
     [ RunWebpack (Sample.merge
                     (webpackPartialGenerator Sample.env Sample.context
                        {| wco_root := "/ws"; projectRoot := "/ws/app";
                           buildOptions := Sample.plain |}));
       Emit {| success := true; out_outputPath := Some "/ws/dist" |} ]).
Proof. reflexivity. Qed.

(** ** The claims *)




(** C2, at its failing input: watch is not requested, the service worker
    is requested and every build event succeeds, but the call of the
    augmenter throws instead of returning a promise that rejects.  The
    handlers of [then] are never reached: the processing of the array
    fails with the error of the augmenter after the call, whatever the
    transforms; and a run of buildWebpackBrowser whose webpack runs
    produce such an array first fails with that error, having handed no
    result to its subscriber. *)
Theorem service_worker_call_failure_escapes :
  forall (env : Collaborators) (options : BrowserBuilderSchema)
         (context : BuilderContext) (transforms : Transforms) (w : World)
         (projectRoot : Path) (e : Exn),
    isTrue (watch options) = false ->
    isTrue (serviceWorker options) = true ->
    augmentAppWithServiceWorker w
      (root env context) projectRoot
      (resolve env (root env context) (normalize env (outputPath options)))
      (orElse (baseHref options) "/") (ngswConfigPath options) = Throw e ->
    let augmentation :=
      AugmentAppWithServiceWorker
        (root env context) projectRoot
        (resolve env (root env context) (normalize env (outputPath options)))
        (orElse (baseHref options) "/") (ngswConfigPath options) in
    (forall buildEvents,
        Forall (fun r => success r = true) buildEvents ->
        Rx.subscribe (postProcess env options context transforms w projectRoot
                                  (Rx.emits [buildEvents]))
        = (Throw e, [augmentation]))
    /\ (forall (workspace : Workspace) (configs : list Configuration)
              (name : string) (definition : ProjectDefinition)
              (source : Configuration -> Recorded BuilderOutput)
              (first : list BuilderOutput) (rest : list (list BuilderOutput)),
          buildBrowserWebpackConfigFromContext env options context w
          = Ok (workspace, configs) ->
          tf_config transforms = None ->
          (isTrue (deleteOutputPath options) = true ->
           deleteOutputDir w (normalize env (workspaceRoot context))
                             (normalize env (outputPath options)) = Ok tt) ->
          match ctx_target context with
          | Some t => Some (project t)
          | None => getDefaultProjectName workspace
          end = Some name ->
          name <> "" ->
          getProject workspace name = Ok definition ->
          projectRoot
          = resolve env (ws_root workspace) (normalize env (proj_root definition)) ->
          (forall config,
              In config configs ->
              runWebpack w config context (loggingFn env options context transforms)
              = Ok (source config)) ->
          Rx.combine
            (List.map emitted (List.map source configs))
            (List.map (fun _ => None) (List.map emitted (List.map source configs)))
            (fst (Rx.heard (List.map emitted (List.map source configs))
                           (List.map failure (List.map source configs))
                           (arrival w)))
          = first :: rest ->
          Forall (fun r => success r = true) first ->
          let run :=
            Rx.subscribe (buildWebpackBrowser env options context transforms w) in
          fst run = Throw e
          /\ results (snd run) = []
          /\ exists calls,
              snd run = (calls ++ [augmentation])%list
              /\ Forall (fun ev => isPostProcessing ev = false) calls).
Proof.
  intros env options context transforms w projectRoot e
         Hwatch Hsw Hthrows augmentation.
  assert (Hone : forall buildEvents,
             Forall (fun r => success r = true) buildEvents ->
             Rx.subscribe (postProcess env options context transforms w projectRoot
                                       (Rx.emits [buildEvents]))
             = (Throw e, [augmentation])).
  { intros buildEvents Hall.
    unfold Rx.subscribe, postProcess, Rx.switchMap, Rx.concatMap, Rx.map, Rx.emits,
      Rx.of_.
    rewrite forEach_one. unfold augment.
    change (success (aggregate buildEvents)) with (forallb success buildEvents).
    replace (forallb success buildEvents) with true
      by (symmetry; apply forallb_forall; rewrite Forall_forall in Hall; exact Hall).
    rewrite Hwatch, Hsw. simpl andb. cbv iota.
    unfold Rx.concatMap, Rx.fromCall. rewrite Hthrows. reflexivity. }
  split; [exact Hone|].
  intros workspace configs name definition source first rest Hconfigure Hconfig
         Hclean Hname Hnonempty Hproject Hroot Hruns Harrays Hall run.
  pose proof (compile_cycles env options context transforms w workspace configs
                             name definition source Hname Hnonempty Hproject Hruns)
    as Hcompile.
  cbv zeta in Hcompile. rewrite Harrays, <- Hroot, postProcess_emits in Hcompile.
  simpl forEach in Hcompile. rewrite (Hone first Hall), forEach_tell in Hcompile.
  assert (Hstage : Rx.subscribe (compile env options context transforms w
                                         (workspace, configs))
                   = (Throw e, (List.map RunWebpack configs ++ [augmentation])%list))
    by (rewrite Hcompile; reflexivity).
  clear Hcompile. unfold Rx.subscribe in Hstage.
  assert (Hruns_quiet : Forall (fun ev => isPostProcessing ev = false)
                               (List.map RunWebpack configs))
    by (apply Forall_forall; intros ev Hev; apply in_map_iff in Hev;
        destruct Hev as [c [<- _]]; reflexivity).
  unfold run, Rx.subscribe, buildWebpackBrowser, Rx.switchMap,
    Rx.concatMap, Rx.of_, Rx.from.
  rewrite Hconfigure, bind_pure_ok.
  unfold transformConfigs. rewrite Hconfig. unfold Rx.of_, cleanOutput.
  destruct (isTrue (deleteOutputPath options)) eqn:Hdelete.
  - unfold Rx.map, Rx.fromCall. rewrite (Hclean eq_refl), Hstage.
    split; [reflexivity|]. split.
    + simpl. rewrite results_app, (results_of_calls RunWebpack) by reflexivity.
      reflexivity.
    + exists (DeleteOutputDir (normalize env (workspaceRoot context))
                              (normalize env (outputPath options))
              :: List.map RunWebpack configs).
      split; [reflexivity|]. constructor; [reflexivity|exact Hruns_quiet].
  - unfold Rx.of_. rewrite Hstage. split; [reflexivity|]. split.
    + simpl snd. rewrite results_app, (results_of_calls RunWebpack) by reflexivity.
      reflexivity.
    + exists (List.map RunWebpack configs). split; [reflexivity|exact Hruns_quiet].
Qed.

Lemma service_worker_call_failure_escapes_witness :
  Rx.subscribe (buildWebpackBrowser Sample.env Sample.options Sample.context
                                    Sample.noTransforms Sample.crashing)
  = (Throw (JsError "Cannot find module '@angular/service-worker'"),
     [ DeleteOutputDir "/ws" "dist";
       RunWebpack (Sample.merge
                     (webpackPartialGenerator Sample.env Sample.context
                        {| wco_root := "/ws"; projectRoot := "/ws/app";
                           buildOptions := Sample.options |}));
       AugmentAppWithServiceWorker "/ws" "/ws/app" "/ws/dist" "/" None ])
  /\ fst (Rx.subscribe (buildWebpackBrowser Sample.env Sample.options Sample.context
                                            Sample.noTransforms Sample.crashing))
     = Throw (JsError "Cannot find module '@angular/service-worker'")
  /\ results (snd (Rx.subscribe
                     (buildWebpackBrowser Sample.env Sample.options Sample.context
                                          Sample.noTransforms Sample.crashing)))
     = [].
Proof.
  split; [reflexivity|].
  destruct (proj2 (service_worker_call_failure_escapes
                     Sample.env Sample.options Sample.context Sample.noTransforms
                     Sample.crashing "/ws/app"
                     (JsError "Cannot find module '@angular/service-worker'")
                     eq_refl eq_refl eq_refl)
                  Sample.workspace
                  [Sample.merge
                     (webpackPartialGenerator Sample.env Sample.context
                        {| wco_root := "/ws"; projectRoot := "/ws/app";
                           buildOptions := Sample.options |})]
                  "app" {| proj_root := "app" |}
                  (fun _ => {| emitted := [Sample.passed]; failure := None |})
                  [Sample.passed] []
                  eq_refl eq_refl (fun _ => eq_refl) eq_refl
                  ltac:(discriminate) eq_refl eq_refl
                  (fun _ _ => eq_refl) eq_refl
                  ltac:(repeat constructor))
    as [Hfails [Hresults _]].
  split; [exact Hfails|exact Hresults].
Defined.

(** X19: a promise of the augmenter that rejects is caught: when every
    build event succeeds, watch is not requested and the service worker
    is, the result has success = false, it is handed over, and the
    processing of the array ends without error. *)
Theorem service_worker_rejection_is_caught :
  forall (env : Collaborators) (options : BrowserBuilderSchema)
         (context : BuilderContext) (transforms : Transforms) (w : World)
         (projectRoot : Path) (buildEvents : list BuilderOutput) (e : Exn),
    tf_output transforms = None ->
    isTrue (watch options) = false ->
    isTrue (serviceWorker options) = true ->
    Forall (fun r => success r = true) buildEvents ->
    augmentAppWithServiceWorker w
      (root env context) projectRoot
      (resolve env (root env context) (normalize env (outputPath options)))
      (orElse (baseHref options) "/") (ngswConfigPath options) = Ok (Throw e) ->
    Rx.subscribe (postProcess env options context transforms w projectRoot
                              (Rx.emits [buildEvents]))
    = (Ok tt,
       [ AugmentAppWithServiceWorker
           (root env context) projectRoot
           (resolve env (root env context) (normalize env (outputPath options)))
           (orElse (baseHref options) "/") (ngswConfigPath options);
         Emit {| success := false;
                 out_outputPath :=
                   Some (path_resolve env (workspaceRoot context)
                                      (outputPath options)) |} ]).
Proof.
  intros env options context transforms w projectRoot buildEvents e
         Hout Hwatch Hsw Hall Hrejects.
  rewrite (postProcess_one env options context transforms w projectRoot
                           buildEvents Hout).
  rewrite Hwatch, Hsw, Hrejects.
  replace (forallb success buildEvents) with true
    by (symmetry; apply forallb_forall; rewrite Forall_forall in Hall; exact Hall).
  reflexivity.
Qed.

Lemma service_worker_rejection_is_caught_witness :
  Rx.subscribe (postProcess Sample.env Sample.options Sample.context
                            Sample.noTransforms Sample.world "/ws/app"
                            (Rx.emits [[Sample.passed; Sample.passed]]))
  = (Ok tt,
     [ AugmentAppWithServiceWorker "/ws" "/ws/app" "/ws/dist" "/" None;
       Emit {| success := false; out_outputPath := Some "/ws/dist" |} ]).
Proof.
  apply (service_worker_rejection_is_caught
           Sample.env Sample.options Sample.context Sample.noTransforms
           Sample.world "/ws/app" [Sample.passed; Sample.passed]
           (JsError "ngsw-config.json not found") eq_refl eq_refl eq_refl).
  - repeat constructor.
  - reflexivity.
Defined.

(** C3: when the context has no target and the workspace no default
    project, the operation fails with the resolution error in the
    Configure stage, and the trace of the run is empty: neither the output
    cleaner nor the webpack runner has been called. *)
Theorem unresolved_project_aborts_in_configure :
  forall (env : Collaborators) (options : BrowserBuilderSchema)
         (context : BuilderContext) (transforms : Transforms) (w : World)
         (workspace : Workspace),
    workspaceFromPath w (normalize env (workspaceRoot context)) = Ok workspace ->
    ctx_target context = None ->
    truthy (getDefaultProjectName workspace) = false ->
    buildBrowserWebpackConfigFromContext env options context w = Throw resolutionError
    /\ Rx.subscribe (buildWebpackBrowser env options context transforms w)
       = (Throw resolutionError, []).
Proof.
  intros env options context transforms w workspace Hload Htarget Hdefault.
  assert (Hconfigure : buildBrowserWebpackConfigFromContext env options context w
                       = Throw resolutionError).
  { unfold buildBrowserWebpackConfigFromContext,
      generateBrowserWebpackConfigFromContext.
    rewrite Hload, Htarget, Hdefault. reflexivity. }
  split; [exact Hconfigure|].
  unfold Rx.subscribe, buildWebpackBrowser, Rx.switchMap, Rx.concatMap, Rx.of_,
    Rx.from.
  rewrite Hconfigure. reflexivity.
Qed.

Lemma unresolved_project_aborts_in_configure_witness :
  Rx.subscribe (buildWebpackBrowser Sample.env Sample.options Sample.noTarget
                                    Sample.noTransforms Sample.multiProject)
  = (Throw resolutionError, []).
Proof.
  apply (proj2 (unresolved_project_aborts_in_configure
                  Sample.env Sample.options Sample.noTarget Sample.noTransforms
                  Sample.multiProject Sample.noDefault eq_refl eq_refl eq_refl)).
Defined.

(** The guard of [compile] itself is evaluated after the clean step: a
    run that reaches it without a project name has already called the
    output cleaner. *)
Remark guard_of_compile_follows_clean :
  forall (env : Collaborators) (options : BrowserBuilderSchema)
         (context : BuilderContext) (transforms : Transforms) (w : World)
         (workspace : Workspace) (configs : list Configuration),
    ctx_target context = None ->
    truthy (getDefaultProjectName workspace) = false ->
    isTrue (deleteOutputPath options) = true ->
    deleteOutputDir w (normalize env (workspaceRoot context))
                      (normalize env (outputPath options)) = Ok tt ->
    Rx.subscribe (Rx.switchMap (compile env options context transforms w)
                               (cleanOutput env options context w (workspace, configs)))
    = (Throw resolutionError,
       [ DeleteOutputDir (normalize env (workspaceRoot context))
                         (normalize env (outputPath options)) ]).
Proof.
  intros env options context transforms w workspace configs
         Htarget Hdefault Hdelete Hdeleted.
  unfold Rx.subscribe, Rx.switchMap, Rx.concatMap, cleanOutput, compile, Rx.map,
    Rx.fromCall.
  rewrite Hdelete, Hdeleted, Htarget. simpl.
  destruct (getDefaultProjectName workspace) as [[|c name]|];
    simpl in Hdefault; try discriminate; reflexivity.
Qed.

(** C4: in watch mode the service-worker augmenter is never called,
    whatever the service-worker option and the build events. *)
Theorem watch_mode_never_augments :
  forall (env : Collaborators) (options : BrowserBuilderSchema)
         (context : BuilderContext) (transforms : Transforms) (w : World),
    isTrue (watch options) = true ->
    forall ev,
      In ev (snd (Rx.subscribe (buildWebpackBrowser env options context transforms w))) ->
      isAugmentation ev = false.
Proof.
  intros env options context transforms w Hwatch.
  apply Forall_forall.
  apply buildWebpackBrowser_respects with (Q := fun _ => True); auto.
  intros projectRoot buildEvent. apply augment_delivers_calls.
  rewrite Hwatch, andb_false_r. discriminate.
Qed.

Lemma watch_mode_never_augments_witness :
  Rx.subscribe (buildWebpackBrowser Sample.env Sample.watching Sample.context
                                    Sample.noTransforms Sample.world)
  = (Ok tt,
     [ RunWebpack (Sample.merge
                     (webpackPartialGenerator Sample.env Sample.context
                        {| wco_root := "/ws"; projectRoot := "/ws/app";
                           buildOptions := Sample.watching |}));
       Emit {| success := true; out_outputPath := Some "/ws/dist" |};
       Emit {| success := true; out_outputPath := Some "/ws/dist" |} ])
  /\ Forall (fun ev => isAugmentation ev = false)
            (snd (Rx.subscribe
                    (buildWebpackBrowser Sample.env Sample.watching Sample.context
                                         Sample.noTransforms Sample.world))).
Proof.
  split; [reflexivity|].
  apply Forall_forall.
  apply (watch_mode_never_augments Sample.env Sample.watching Sample.context
                                   Sample.noTransforms Sample.world eq_refl).
Defined.

(** C5: with a main entry or polyfills set (a non-empty value), the
    compiler fragment is the AOT fragment when AOT is requested and the
    non-AOT fragment when it is not; with neither set it is the empty
    fragment, whatever the AOT flag. *)
Theorem compiler_fragment_by_entry_and_aot :
  forall (env : Collaborators) (wco : WebpackConfigOptions),
    (truthy (main (buildOptions wco)) = true
     \/ truthy (polyfills (buildOptions wco)) = true ->
     (isTrue (aot (buildOptions wco)) = true ->
      getCompilerConfig env wco = getAotConfig env wco)
     /\ (isTrue (aot (buildOptions wco)) = false ->
         getCompilerConfig env wco = getNonAotConfig env wco))
    /\ (truthy (main (buildOptions wco)) = false ->
        truthy (polyfills (buildOptions wco)) = false ->
        getCompilerConfig env wco = emptyObject).
Proof.
  intros env wco. unfold getCompilerConfig. split.
  - intros Hset.
    assert (Hor : truthy (main (buildOptions wco))
                  || truthy (polyfills (buildOptions wco)) = true)
      by (apply orb_true_iff; exact Hset).
    rewrite Hor. split; intros Haot; rewrite Haot; reflexivity.
  - intros Hmain Hpolyfills. rewrite Hmain, Hpolyfills. reflexivity.
Qed.

Lemma compiler_fragment_by_entry_and_aot_witness :
  getCompilerConfig Sample.env
    {| wco_root := "/ws"; projectRoot := "/ws/app"; buildOptions := Sample.options |}
  = Sample.fragment "aot"
      {| wco_root := "/ws"; projectRoot := "/ws/app"; buildOptions := Sample.options |}.
Proof.
  apply (proj1 (proj1 (compiler_fragment_by_entry_and_aot
                         Sample.env
                         {| wco_root := "/ws"; projectRoot := "/ws/app";
                            buildOptions := Sample.options |})
                      (or_introl eq_refl))
               eq_refl).
Defined.

(** C6: every build result that the orchestrator hands to the output
    transform or, without one, to its subscriber carries as outputPath
    the path resolved from the workspace root and the configured output
    path, whether it reports success or failure. *)
Theorem result_carries_resolved_output_path :
  forall (env : Collaborators) (options : BrowserBuilderSchema)
         (context : BuilderContext) (transforms : Transforms) (w : World),
    let run := Rx.subscribe (buildWebpackBrowser env options context transforms w) in
    let resolved := path_resolve env (workspaceRoot context) (outputPath options) in
    (forall output, In (OutputFn output) (snd run) ->
                    out_outputPath output = Some resolved)
    /\ (tf_output transforms = None ->
        forall output, In (Emit output) (snd run) ->
                       out_outputPath output = Some resolved).
Proof.
  intros env options context transforms w run resolved.
  assert (Hinv : respects
                   (fun ev => match ev with
                              | OutputFn output => out_outputPath output = Some resolved
                              | Emit output =>
                                  tf_output transforms = None ->
                                  out_outputPath output = Some resolved
                              | _ => True
                              end) run).
  { apply buildWebpackBrowser_respects with (Q := fun _ => True);
      try (intros; exact I); try (intros; reflexivity).
    - intros projectRoot buildEvent. apply augment_delivers_calls. auto.
    - intros output Hsome Hnone. contradiction. }
  unfold respects in Hinv. rewrite Forall_forall in Hinv.
  split; [intros output Hin; exact (Hinv _ Hin)|].
  intros Hout output Hin. exact (Hinv _ Hin Hout).
Qed.

Lemma result_carries_resolved_output_path_witness :
  Forall (fun ev => match ev with
                    | Emit output => out_outputPath output = Some "/ws/dist"
                    | _ => True
                    end)
         (snd (Rx.subscribe
                 (buildWebpackBrowser Sample.env Sample.options Sample.context
                                      Sample.noTransforms Sample.world))).
Proof.
  apply Forall_forall. intros [| | | |output|output] Hin; try exact I.
  apply (proj2 (result_carries_resolved_output_path
                  Sample.env Sample.options Sample.context Sample.noTransforms
                  Sample.world)
               eq_refl output Hin).
Defined.

(** C7: without an analytics sink in the context, the analytics fragment
    is the empty object, it holds no plugin, and it is the entry that the
    fragment list contributes at the analytics position, for every set of
    build options. *)
Theorem no_analytics_sink_gives_empty_fragment :
  forall (env : Collaborators) (wco : WebpackConfigOptions)
         (context : BuilderContext),
    analytics context = None ->
    getAnalyticsConfig wco context = emptyObject
    /\ plugins (getAnalyticsConfig wco context) = None
    /\ nth_error (webpackPartialGenerator env context wco) 4 = Some emptyObject.
Proof.
  intros env wco context Hnone.
  assert (Hempty : getAnalyticsConfig wco context = emptyObject)
    by (unfold getAnalyticsConfig; rewrite Hnone; reflexivity).
  split; [exact Hempty|]. split.
  - rewrite Hempty. reflexivity.
  - simpl. rewrite Hempty. reflexivity.
Qed.

Lemma no_analytics_sink_gives_empty_fragment_witness :
  nth_error (webpackPartialGenerator Sample.env Sample.context
               {| wco_root := "/ws"; projectRoot := "/ws/app";
                  buildOptions := Sample.options |}) 4
  = Some emptyObject.
Proof.
  apply (proj2 (proj2 (no_analytics_sink_gives_empty_fragment
                         Sample.env
                         {| wco_root := "/ws"; projectRoot := "/ws/app";
                            buildOptions := Sample.options |}
                         Sample.context eq_refl))).
Defined.

(** C8, as stated, fails: the callback has no handler, and a statistics
    object whose [toJson] throws makes it throw. *)
Lemma logging_callback_can_throw :
  createBrowserLoggingCallback Sample.env false Sample.quiet Sample.broken emptyObject
  = (Throw (JsError "Cannot read property of undefined"), []).
Proof. reflexivity. Qed.


(** C8, amended: the callback has no error handling.  It throws only an
    exception thrown by a method of the statistics object, by a formatter
    or by the logger, so that it returns normally whenever none of them
    throws; and an exception thrown by any one of these calls, the calls
    before it having returned, is thrown by the callback unchanged, after
    the messages handed to the logger so far and with no further message
    logged. *)
Theorem logging_callback_propagates :
  forall (env : Collaborators) (verbose : bool) (logger : LoggerApi)
         (st : Stats) (config : Configuration) (e : Exn),
    let run := createBrowserLoggingCallback env verbose logger st config in
    let mainText json :=
      if verbose then toString st (stats config)
      else statsToString env json (stats config) in
    (fst run = Throw e ->
     toJson st (stats config) = Throw e
     \/ toString st (stats config) = Throw e
     \/ hasWarnings st = Throw e
     \/ hasErrors st = Throw e
     \/ (exists json, statsToString env json (stats config) = Throw e
                      \/ statsWarningsToString env json (stats config) = Throw e
                      \/ statsErrorsToString env json (stats config) = Throw e)
     \/ (exists text, info logger text = Throw e
                      \/ warn logger text = Throw e
                      \/ error logger text = Throw e))
    /\ (toJson st (stats config) = Throw e -> run = (Throw e, []))
    /\ (forall json text,
          toJson st (stats config) = Ok json ->
          (mainText json = Throw e -> run = (Throw e, []))
          /\ (mainText json = Ok text ->
              (info logger text = Throw e -> run = (Throw e, [(LevelInfo, text)]))
              /\ (info logger text = Ok tt ->
                  (hasWarnings st = Throw e -> run = (Throw e, [(LevelInfo, text)]))
                  /\ (hasWarnings st = Ok true ->
                      (statsWarningsToString env json (stats config) = Throw e ->
                       run = (Throw e, [(LevelInfo, text)]))
                      /\ (forall warningsText,
                             statsWarningsToString env json (stats config)
                             = Ok warningsText ->
                             warn logger warningsText = Throw e ->
                             run = (Throw e, [(LevelInfo, text);
                                              (LevelWarn, warningsText)])))
                  /\ (forall warnings logged,
                         hasWarnings st = Ok warnings ->
                         (if warnings
                          then exists warningsText,
                              statsWarningsToString env json (stats config)
                              = Ok warningsText
                              /\ warn logger warningsText = Ok tt
                              /\ logged = [(LevelInfo, text);
                                           (LevelWarn, warningsText)]
                          else logged = [(LevelInfo, text)]) ->
                         (hasErrors st = Throw e -> run = (Throw e, logged))
                         /\ (hasErrors st = Ok true ->
                             (statsErrorsToString env json (stats config) = Throw e ->
                              run = (Throw e, logged))
                             /\ (forall errorsText,
                                    statsErrorsToString env json (stats config)
                                    = Ok errorsText ->
                                    error logger errorsText = Throw e ->
                                    run = (Throw e,
                                           logged ++ [(LevelError, errorsText)])%list)))))).
Proof.
  intros env verbose logger st config e run mainText. subst run.
  split.
  { intros H. unfold createBrowserLoggingCallback in H. throws H; eauto 12. }
  unfold createBrowserLoggingCallback, pure, call.
  split; [intros Hjson; rewrite Hjson; reflexivity|].
  intros json text Hjson. rewrite Hjson.
  assert (Hmain : forall r,
             mainText json = r ->
             (if verbose
              then bind (toString st (stats config), [])
                        (fun t => (info logger t, [(LevelInfo, t)]))
              else bind (statsToString env json (stats config), [])
                        (fun t => (info logger t, [(LevelInfo, t)])))
             = bind (r, []) (fun t => (info logger t, [(LevelInfo, t)]))).
  { intros r <-. unfold mainText. destruct verbose; reflexivity. }
  split.
  { intros Htext. cbn [bind fst snd app]. cbn [bind fst snd app] in Hmain.
    rewrite (Hmain _ Htext). reflexivity. }
  intros Htext. cbn [bind fst snd app]. cbn [bind fst snd app] in Hmain.
  rewrite (Hmain _ Htext). split.
  { intros Hinfo. rewrite Hinfo. reflexivity. }
  intros Hinfo. rewrite Hinfo. split.
  { intros Hw. rewrite Hw. reflexivity. }
  split.
  { intros Hw. rewrite Hw. split.
    - intros Hf. rewrite Hf. reflexivity.
    - intros warningsText Hf Hwarn. rewrite Hf. cbn [bind fst snd app].
      rewrite Hwarn. reflexivity. }
  intros warnings logged Hw Hlogged. rewrite Hw.
  destruct warnings.
  - destruct Hlogged as [warningsText [Hf [Hwarn ->]]].
    rewrite Hf. cbn [bind fst snd app]. rewrite Hwarn. split.
    + intros He. rewrite He. reflexivity.
    + intros He. rewrite He. split.
      * intros Hg. rewrite Hg. reflexivity.
      * intros errorsText Hg Herror. rewrite Hg. cbn [bind fst snd app].
        rewrite Herror. reflexivity.
  - subst logged. split.
    + intros He. rewrite He. reflexivity.
    + intros He. rewrite He. split.
      * intros Hg. rewrite Hg. reflexivity.
      * intros errorsText Hg Herror. rewrite Hg. cbn [bind fst snd app].
        rewrite Herror. reflexivity.
Qed.

Lemma logging_callback_propagates_witness :
  createBrowserLoggingCallback Sample.env false Sample.closed Sample.report emptyObject
  = (Throw (JsError "write EPIPE"),
     [(LevelInfo, "summary of {}"); (LevelWarn, "warnings of {}")]).
Proof.
  destruct (logging_callback_propagates
              Sample.env false Sample.closed Sample.report emptyObject
              (JsError "write EPIPE")) as [_ [_ Hsites]].
  destruct (Hsites "{}" "summary of {}" eq_refl) as [_ Hmain].
  destruct (Hmain eq_refl) as [_ Hinfo].
  destruct (Hinfo eq_refl) as [_ [Hwarnings _]].
  destruct (Hwarnings eq_refl) as [_ Hwarn].
  exact (Hwarn "warnings of {}" eq_refl eq_refl).
Defined.

(** C9: when the calls it makes return normally, the callback logs, in
    this order, one message at info level, which is the raw statistics
    text in verbose mode and the condensed summary otherwise; the warnings
    summary at warning level exactly when the statistics report warnings;
    and the errors summary at error level exactly when they report errors,
    both whatever the verbose flag. *)
Theorem logging_callback_levels :
  forall (env : Collaborators) (verbose : bool) (logger : LoggerApi)
         (st : Stats) (config : Configuration)
         (json : Json) (text warningsText errorsText : string)
         (warnings errors : bool),
    toJson st (stats config) = Ok json ->
    (if verbose then toString st (stats config)
     else statsToString env json (stats config)) = Ok text ->
    info logger text = Ok tt ->
    hasWarnings st = Ok warnings ->
    (warnings = true ->
     statsWarningsToString env json (stats config) = Ok warningsText
     /\ warn logger warningsText = Ok tt) ->
    hasErrors st = Ok errors ->
    (errors = true ->
     statsErrorsToString env json (stats config) = Ok errorsText
     /\ error logger errorsText = Ok tt) ->
    createBrowserLoggingCallback env verbose logger st config
    = (Ok tt,
       [(LevelInfo, text)]
       ++ (if warnings then [(LevelWarn, warningsText)] else [])
       ++ (if errors then [(LevelError, errorsText)] else []))%list.
Proof.
  intros env verbose logger st config json text warningsText errorsText
         warnings errors Hjson Htext Hinfo Hwarnings Hwarn Herrors Herror.
  unfold createBrowserLoggingCallback, pure, call.
  rewrite Hjson, Hwarnings, Herrors.
  assert (Hmain : (if verbose
                   then bind (toString st (stats config), [])
                             (fun t => (info logger t, [(LevelInfo, t)]))
                   else bind (statsToString env json (stats config), [])
                             (fun t => (info logger t, [(LevelInfo, t)])))
                  = (Ok tt, [(LevelInfo, text)])).
  { destruct verbose; rewrite Htext; simpl; rewrite Hinfo; reflexivity. }
  simpl. simpl in Hmain. rewrite Hmain.
  destruct warnings, errors;
    try (destruct (Hwarn eq_refl) as [Hw1 Hw2]; rewrite Hw1, Hw2);
    try (destruct (Herror eq_refl) as [He1 He2]; rewrite He1, He2);
    reflexivity.
Qed.

Lemma logging_callback_levels_witness :
  createBrowserLoggingCallback Sample.env true Sample.quiet Sample.report emptyObject
  = (Ok tt, [(LevelInfo, "raw statistics"); (LevelWarn, "warnings of {}")])
  /\ createBrowserLoggingCallback Sample.env false Sample.quiet Sample.report
                                  emptyObject
     = (Ok tt, [(LevelInfo, "summary of {}"); (LevelWarn, "warnings of {}")]).
Proof.
  split.
  - apply (logging_callback_levels
             Sample.env true Sample.quiet Sample.report emptyObject
             "{}" "raw statistics" "warnings of {}" "" true false
             eq_refl eq_refl eq_refl eq_refl
             (fun _ => conj eq_refl eq_refl) eq_refl).
    intros H. discriminate H.
  - apply (logging_callback_levels
             Sample.env false Sample.quiet Sample.report emptyObject
             "{}" "summary of {}" "warnings of {}" "" true false
             eq_refl eq_refl eq_refl eq_refl
             (fun _ => conj eq_refl eq_refl) eq_refl).
    intros H. discriminate H.
Defined.

(** C10: every call of the service-worker augmenter receives '/' as base
    href when the baseHref option is unset or empty, and the configured
    value otherwise. *)
Theorem augmenter_base_href :
  forall (env : Collaborators) (options : BrowserBuilderSchema)
         (context : BuilderContext) (transforms : Transforms) (w : World)
         (r projectRoot path : Path) (href : string) (ngsw : option string),
    In (AugmentAppWithServiceWorker r projectRoot path href ngsw)
       (snd (Rx.subscribe (buildWebpackBrowser env options context transforms w))) ->
    (truthy (baseHref options) = false -> href = "/")
    /\ (forall configured, baseHref options = Some configured ->
                           configured <> "" -> href = configured).
Proof.
  intros env options context transforms w r projectRoot path href ngsw Hin.
  assert (Hinv : respects
                   (fun ev => match ev with
                              | AugmentAppWithServiceWorker _ _ _ b _ =>
                                  b = orElse (baseHref options) "/"
                              | _ => True
                              end)
                   (Rx.subscribe (buildWebpackBrowser env options context
                                                      transforms w))).
  { apply buildWebpackBrowser_respects with (Q := fun _ => True);
      try (intros; exact I).
    intros pr buildEvent. apply augment_delivers_calls. auto. }
  unfold respects in Hinv. rewrite Forall_forall in Hinv.
  specialize (Hinv _ Hin). simpl in Hinv. subst href. split.
  - apply orElse_default.
  - intros configured Hset Hnonempty. rewrite Hset.
    apply orElse_configured, Hnonempty.
Qed.

Lemma augmenter_base_href_witness :
  In (AugmentAppWithServiceWorker "/ws" "/ws/app" "/ws/dist" "/" None)
     (snd (Rx.subscribe
             (buildWebpackBrowser Sample.env Sample.options Sample.context
                                  Sample.noTransforms Sample.world)))
  /\ In (AugmentAppWithServiceWorker "/ws" "/ws/app" "/ws/dist" "/app/"
                                     (Some "ngsw-config.json"))
        (snd (Rx.subscribe
                (buildWebpackBrowser Sample.env Sample.deployed Sample.context
                                     Sample.noTransforms Sample.multiProject)))
  /\ "/" = "/"
  /\ "/app/" = "/app/".
Proof.
  assert (Hdefault :
            In (AugmentAppWithServiceWorker "/ws" "/ws/app" "/ws/dist" "/" None)
               (snd (Rx.subscribe
                       (buildWebpackBrowser Sample.env Sample.options Sample.context
                                            Sample.noTransforms Sample.world))))
    by (simpl; right; right; left; reflexivity).
  assert (Hconfigured :
            In (AugmentAppWithServiceWorker "/ws" "/ws/app" "/ws/dist" "/app/"
                                            (Some "ngsw-config.json"))
               (snd (Rx.subscribe
                       (buildWebpackBrowser Sample.env Sample.deployed
                                            Sample.context Sample.noTransforms
                                            Sample.multiProject))))
    by (simpl; right; left; reflexivity).
  split; [exact Hdefault|]. split; [exact Hconfigured|]. split.
  - apply (proj1 (augmenter_base_href
                    Sample.env Sample.options Sample.context Sample.noTransforms
                    Sample.world "/ws" "/ws/app" "/ws/dist" "/" None Hdefault)).
    reflexivity.
  - apply (proj2 (augmenter_base_href
                    Sample.env Sample.deployed Sample.context Sample.noTransforms
                    Sample.multiProject "/ws" "/ws/app" "/ws/dist" "/app/"
                    (Some "ngsw-config.json") Hconfigured)
                 "/app/" eq_refl).
    discriminate.
Defined.

(** ** Further properties of the logging adapter *)

(** X1: whatever the statistics object, the formatters and the logger do,
    the callback logs at most one message per level, info before warning
    before error, and never a warning or an error without the info
    message before it; a run that returns normally has logged the info
    message. *)
Theorem logging_levels_in_order :
  forall (env : Collaborators) (verbose : bool) (logger : LoggerApi)
         (st : Stats) (config : Configuration),
    In (levels (snd (createBrowserLoggingCallback env verbose logger st config)))
       [ [];
         [LevelInfo];
         [LevelInfo; LevelWarn];
         [LevelInfo; LevelError];
         [LevelInfo; LevelWarn; LevelError] ]
    /\ (fst (createBrowserLoggingCallback env verbose logger st config) = Ok tt ->
        exists rest,
          levels (snd (createBrowserLoggingCallback env verbose logger st config))
          = LevelInfo :: rest).
Proof.
  intros env verbose logger st config.
  unfold createBrowserLoggingCallback, pure, call, bind, ret, levels.
  destruct (toJson st (stats config)) as [json|e];
    [|split; [simpl; auto|discriminate]].
  destruct verbose;
    repeat match goal with
           | |- context [match ?x with _ => _ end] =>
               match type of x with
               | Result _ => destruct x
               | bool => destruct x
               | _ => fail 1
               end
           end;
    simpl; split; try discriminate; eauto 8.
Qed.

(** ** Further properties of the analytics fragment *)

Lemma split_without_separator (sep : ascii) (s : string) :
  ~ In sep (list_ascii_of_string s) -> split sep s = [s].
Proof.
  induction s as [|c s IH]; simpl; intros Hfree; [reflexivity|].
  destruct (Ascii.eqb_spec c sep) as [->|_].
  - exfalso. apply Hfree. now left.
  - rewrite IH; [reflexivity|]. intros Hin. apply Hfree. now right.
Qed.

Lemma split_at_first_separator (sep : ascii) (s rest : string) :
  ~ In sep (list_ascii_of_string s) ->
  split sep (s ++ String sep rest) = s :: split sep rest.
Proof.
  induction s as [|c s IH]; simpl; intros Hfree.
  - rewrite Ascii.eqb_refl. reflexivity.
  - destruct (Ascii.eqb_spec c sep) as [->|_].
    + exfalso. apply Hfree. now left.
    + rewrite IH; [reflexivity|]. intros Hin. apply Hfree. now right.
Qed.

(** X2: with an analytics sink and a builder named package:name, the
    analytics fragment holds exactly one plugin, built from the project
    root of the options, the sink of the context and the category name,
    the part of the builder name after the colon. *)
Theorem analytics_category_is_builder_name :
  forall (wco : WebpackConfigOptions) (context : BuilderContext)
         (sink : Analytics) (package name : string),
    analytics context = Some sink ->
    builder context = Some {| builderName := package ++ ":" ++ name |} ->
    ~ In ":"%char (list_ascii_of_string package) ->
    ~ In ":"%char (list_ascii_of_string name) ->
    getAnalyticsConfig wco context
    = {| plugins := Some [NgBuildAnalyticsPlugin (projectRoot wco) sink (Some name)];
         stats := None;
         settings := [] |}.
Proof.
  intros wco context sink package name Hsink Hbuilder Hpackage Hname.
  unfold getAnalyticsConfig. rewrite Hsink, Hbuilder. simpl builderName.
  change (package ++ ":" ++ name) with (package ++ String ":"%char name).
  rewrite (split_at_first_separator _ _ _ Hpackage).
  rewrite (split_without_separator _ _ Hname). reflexivity.
Qed.

Lemma analytics_category_is_builder_name_witness :
  getAnalyticsConfig
    {| wco_root := "/ws"; projectRoot := "/ws/app"; buildOptions := Sample.options |}
    Sample.tracked
  = {| plugins := Some [NgBuildAnalyticsPlugin "/ws/app" (AnalyticsSink "ga")
                                               (Some "browser")];
       stats := None;
       settings := [] |}.
Proof.
  apply (analytics_category_is_builder_name
           {| wco_root := "/ws"; projectRoot := "/ws/app";
              buildOptions := Sample.options |}
           Sample.tracked (AnalyticsSink "ga")
           "@angular-devkit/build-angular" "browser" eq_refl eq_refl).
  - simpl. intuition discriminate.
  - simpl. intuition discriminate.
Defined.

(** X3: with an analytics sink and a builder whose name holds no colon,
    the plugin is built with an undefined category: the default 'build'
    is used only when the context has no builder at all. *)
Theorem analytics_category_undefined_without_colon :
  forall (wco : WebpackConfigOptions) (context : BuilderContext)
         (sink : Analytics) (named : BuilderInfo),
    analytics context = Some sink ->
    builder context = Some named ->
    ~ In ":"%char (list_ascii_of_string (builderName named)) ->
    plugins (getAnalyticsConfig wco context)
    = Some [NgBuildAnalyticsPlugin (projectRoot wco) sink None]
    /\ plugins (getAnalyticsConfig wco
                  {| workspaceRoot := workspaceRoot context;
                     ctx_target := ctx_target context;
                     analytics := Some sink;
                     builder := None;
                     logger := logger context |})
       = Some [NgBuildAnalyticsPlugin (projectRoot wco) sink (Some "build")].
Proof.
  intros wco context sink named Hsink Hbuilder Hfree.
  unfold getAnalyticsConfig. rewrite Hsink, Hbuilder. simpl.
  rewrite (split_without_separator _ _ Hfree). split; reflexivity.
Qed.

Lemma analytics_category_undefined_without_colon_witness :
  plugins (getAnalyticsConfig
             {| wco_root := "/ws"; projectRoot := "/ws/app";
                buildOptions := Sample.options |}
             {| workspaceRoot := "/ws";
                ctx_target := None;
                analytics := Some (AnalyticsSink "ga");
                builder := Some {| builderName := "browser" |};
                logger := Sample.quiet |})
  = Some [NgBuildAnalyticsPlugin "/ws/app" (AnalyticsSink "ga") None].
Proof.
  apply (proj1 (analytics_category_undefined_without_colon
                  {| wco_root := "/ws"; projectRoot := "/ws/app";
                     buildOptions := Sample.options |}
                  {| workspaceRoot := "/ws";
                     ctx_target := None;
                     analytics := Some (AnalyticsSink "ga");
                     builder := Some {| builderName := "browser" |};
                     logger := Sample.quiet |}
                  (AnalyticsSink "ga") {| builderName := "browser" |}
                  eq_refl eq_refl
                  ltac:(simpl; intuition discriminate))).
Defined.

(** ** Further properties of the stages *)

Lemma nth_error_update_other {A} (i j : nat) (a : A) (l : list A) :
  i <> j -> nth_error (Rx.update i a l) j = nth_error l j.
Proof.
  revert i j. induction l as [|x l IH]; intros i j Hij.
  - destruct i; reflexivity.
  - destruct i as [|i], j as [|j]; simpl; try reflexivity; try congruence.
    apply IH. congruence.
Qed.

Lemma allLatest_none {A} (latest : list (option A)) (j : nat) :
  nth_error latest j = Some None -> Rx.allLatest latest = None.
Proof.
  revert j. induction latest as [|known latest IH]; intros j Hj.
  - destruct j; discriminate.
  - destruct j as [|j]; simpl in Hj.
    + inversion Hj. reflexivity.
    + simpl. destruct known; [|reflexivity]. rewrite (IH j Hj). reflexivity.
Qed.

(** No array is pushed while a source that will not emit has not
    emitted. *)
Lemma combine_silent {A} (order : list nat) (pending : list (list A))
    (latest : list (option A)) (j : nat) :
  nth_error pending j = Some [] ->
  nth_error latest j = Some None ->
  Rx.combine pending latest order = [].
Proof.
  revert pending latest.
  induction order as [|i order IH]; intros pending latest Hpending Hlatest;
    simpl; [reflexivity|].
  destruct (nth_error pending i) as [[|a queue]|] eqn:Hnth;
    try (apply IH; assumption).
  assert (Hij : i <> j) by (intros ->; rewrite Hnth in Hpending; discriminate).
  rewrite (allLatest_none (Rx.update i (Some a) latest) j)
    by (rewrite nth_error_update_other; assumption).
  apply IH; rewrite nth_error_update_other; assumption.
Qed.

(** A source that fails without a value ends what is heard, unless
    another source has failed before. *)
Lemma heard_fails {A} (order : list nat) (pending : list (list A))
    (failures : list (option Exn)) (j : nat) (e : Exn) :
  In j order ->
  nth_error pending j = Some [] ->
  nth_error failures j = Some (Some e) ->
  exists prefix j' e',
    Rx.heard pending failures order = (prefix, Some e')
    /\ nth_error failures j' = Some (Some e').
Proof.
  intros Hin Hpending Hfailure. revert pending Hpending.
  induction order as [|i order IH]; intros pending Hpending; [contradiction|].
  simpl. destruct (nth_error pending i) as [[|a queue]|] eqn:Hnth.
  - destruct (nth_error failures i) as [[e0|]|] eqn:Hfail.
    + exists [], i, e0. split; [reflexivity|exact Hfail].
    + assert (Hij : i <> j) by (intros ->; rewrite Hfail in Hfailure; discriminate).
      destruct Hin as [Hin|Hin]; [contradiction|].
      destruct (IH Hin pending Hpending) as [prefix [j' [e' [Hheard Hj']]]].
      rewrite Hheard. exists (i :: prefix), j', e'. split; [reflexivity|exact Hj'].
    + assert (Hij : i <> j) by (intros ->; rewrite Hfail in Hfailure; discriminate).
      destruct Hin as [Hin|Hin]; [contradiction|].
      destruct (IH Hin pending Hpending) as [prefix [j' [e' [Hheard Hj']]]].
      rewrite Hheard. exists (i :: prefix), j', e'. split; [reflexivity|exact Hj'].
  - assert (Hij : i <> j) by (intros ->; rewrite Hnth in Hpending; discriminate).
    destruct Hin as [Hin|Hin]; [contradiction|].
    destruct (IH Hin (Rx.update i queue pending)) as [prefix [j' [e' [Hheard Hj']]]];
      [rewrite nth_error_update_other; assumption|].
    rewrite Hheard. exists (i :: prefix), j', e'. split; [reflexivity|exact Hj'].
  - assert (Hij : i <> j) by (intros ->; rewrite Hnth in Hpending; discriminate).
    destruct Hin as [Hin|Hin]; [contradiction|].
    destruct (IH Hin pending Hpending) as [prefix [j' [e' [Hheard Hj']]]].
    rewrite Hheard. exists (i :: prefix), j', e'. split; [reflexivity|exact Hj'].
Qed.

(** X4: when the caller's configuration transform emits one value on
    every entry of a non-empty configuration list, it is called once per
    entry, in order, and the build goes on exactly once, with the
    transformed entries in the same order. *)
Theorem config_transform_maps_every_entry :
  forall (transforms : Transforms) (w : World)
         (configFn : Workspace -> Configuration -> Result (Recorded Configuration))
         (transformed : Configuration -> Configuration)
         (workspace : Workspace) (config : list Configuration)
         (next : Workspace * list Configuration -> Eff Event unit),
    tf_config transforms = Some configFn ->
    config <> [] ->
    (forall c, In c config ->
               configFn workspace c
               = Ok {| emitted := [transformed c]; failure := None |}) ->
    transformConfigs transforms w (workspace, config) next
    = (forEach tell (List.map ConfigFn config) ;;;
       next (workspace, List.map transformed config))%eff.
Proof.
  intros transforms w configFn transformed workspace config next Hfn Hconfig Hok.
  unfold transformConfigs. rewrite Hfn.
  unfold Rx.map, Rx.combineLatestOf.
  rewrite (callEach_ok ConfigFn (fun c => configFn workspace c)
             (fun c => {| emitted := [transformed c]; failure := None |})
             config Hok).
  rewrite forEach_tell. apply bind_value.
  etransitivity;
    [apply (combineLatest_streams (fun c => [transformed c]) config)|].
  rewrite <- (length_map transformed config).
  rewrite <- (map_map transformed (fun a => [a]) config).
  rewrite combine_once_more
    by (destruct config; [contradiction Hconfig; reflexivity|discriminate]).
  exact (forEach_one (fun config' => next (workspace, config'))
                     (List.map transformed config)).
Qed.

Lemma config_transform_maps_every_entry_witness :
  transformConfigs Sample.tagging Sample.world
    (Sample.workspace, [Sample.configuration; emptyObject])
    (fun found => tell (RunWebpack (hd emptyObject (snd found))))
  = (Ok tt,
     [ ConfigFn Sample.configuration;
       ConfigFn emptyObject;
       RunWebpack (Sample.tag Sample.configuration) ]).
Proof.
  apply (config_transform_maps_every_entry
           Sample.tagging Sample.world
           (fun _ config => Ok {| emitted := [Sample.tag config]; failure := None |})
           Sample.tag
           Sample.workspace [Sample.configuration; emptyObject]
           (fun found => tell (RunWebpack (hd emptyObject (snd found))))
           eq_refl).
  - discriminate.
  - intros c _. reflexivity.
Defined.

(** X5: a call of the caller's configuration transform that throws ends
    the stage at once, with its error: the entries after it are not
    transformed.  When every call returns and the observable of an entry
    fails without a value, the transform has been called on every entry
    and the stage fails with the error of an observable that failed.  In
    both cases nothing is handed on: neither the clean step nor a webpack
    run follows. *)
Theorem config_transform_failure_stops :
  forall (transforms : Transforms) (w : World)
         (configFn : Workspace -> Configuration -> Result (Recorded Configuration))
         (workspace : Workspace)
         (next : Workspace * list Configuration -> Eff Event unit),
    tf_config transforms = Some configFn ->
    (forall (before after : list Configuration) (c : Configuration) (e : Exn),
        (forall b, In b before -> exists source, configFn workspace b = Ok source) ->
        configFn workspace c = Throw e ->
        transformConfigs transforms w (workspace, (before ++ c :: after)%list) next
        = (Throw e, List.map ConfigFn (before ++ [c])))
    /\ (forall (config : list Configuration)
               (source : Configuration -> Recorded Configuration)
               (c : Configuration) (e : Exn),
          (forall b, In b config -> configFn workspace b = Ok (source b)) ->
          In c config ->
          emitted (source c) = [] ->
          failure (source c) = Some e ->
          exists c' e',
            In c' config /\ failure (source c') = Some e'
            /\ transformConfigs transforms w (workspace, config) next
               = (Throw e', List.map ConfigFn config)).
Proof.
  intros transforms w configFn workspace next Hfn. split.
  - intros before after c e Hbefore Hthrows.
    unfold transformConfigs. rewrite Hfn. unfold Rx.map, Rx.combineLatestOf.
    rewrite (callEach_throws ConfigFn (fun config => configFn workspace config)
                             before after c e Hbefore Hthrows).
    reflexivity.
  - intros config source c e Hok Hin Hemitted Hfailure.
    destruct (In_nth_error config c Hin) as [j Hj].
    assert (Hlt : j < List.length config)
      by (apply nth_error_Some; rewrite Hj; discriminate).
    destruct (heard_fails
                (seq 0 (List.length config) ++ configArrival w)
                (List.map emitted (List.map source config))
                (List.map failure (List.map source config)) j e)
      as [prefix [j' [e' [Hheard Hj']]]].
    + apply in_or_app. left. apply in_seq. lia.
    + rewrite <- Hemitted. apply map_nth_error, map_nth_error, Hj.
    + rewrite <- Hfailure. apply map_nth_error, map_nth_error, Hj.
    + apply nth_error_In in Hj'. rewrite map_map in Hj'.
      apply in_map_iff in Hj'. destruct Hj' as [c' [Hc' Hin']].
      exists c', e'. split; [exact Hin'|]. split; [exact Hc'|].
      unfold transformConfigs. rewrite Hfn. unfold Rx.map, Rx.combineLatestOf.
      rewrite (callEach_ok ConfigFn (fun b => configFn workspace b) source
                           config Hok).
      rewrite bind_ok. cbv beta.
      match goal with
      | |- context [Rx.combineLatest ?sources ?order ?observer] =>
          assert (Hk : Rx.combineLatest sources order observer = (Throw e', []))
      end.
      { unfold Rx.combineLatest. cbv zeta. rewrite Hheard.
        rewrite (combine_silent prefix _ _ j).
        - reflexivity.
        - rewrite <- Hemitted. apply map_nth_error, map_nth_error, Hj.
        - apply map_nth_error
            with (f := fun _ : list Configuration => @None Configuration)
                 (d := emitted (source c)).
          apply map_nth_error, map_nth_error, Hj. }
      rewrite Hk. simpl. rewrite app_nil_r. reflexivity.
Qed.

Lemma config_transform_failure_stops_witness :
  transformConfigs Sample.throwing Sample.world
    (Sample.workspace, [Sample.configuration; emptyObject; Sample.configuration])
    (fun found => tell (RunWebpack (hd emptyObject (snd found))))
  = (Throw (JsError "nothing to transform"),
     [ConfigFn Sample.configuration; ConfigFn emptyObject])
  /\ transformConfigs Sample.rejecting Sample.world
       (Sample.workspace, [Sample.configuration; emptyObject])
       (fun found => tell (RunWebpack (hd emptyObject (snd found))))
     = (Throw (JsError "invalid configuration"),
        [ConfigFn Sample.configuration; ConfigFn emptyObject]).
Proof.
  split.
  - apply (proj1 (config_transform_failure_stops
                    Sample.throwing Sample.world _ Sample.workspace
                    (fun found => tell (RunWebpack (hd emptyObject (snd found))))
                    eq_refl)
                 [Sample.configuration] [Sample.configuration] emptyObject
                 (JsError "nothing to transform")).
    + intros b [<-|[]]. eexists. reflexivity.
    + reflexivity.
  - destruct (proj2 (config_transform_failure_stops
                       Sample.rejecting Sample.world _ Sample.workspace
                       (fun found => tell (RunWebpack (hd emptyObject (snd found))))
                       eq_refl)
                    [Sample.configuration; emptyObject]
                    (fun _ => {| emitted := [];
                                 failure := Some (JsError "invalid configuration") |})
                    emptyObject (JsError "invalid configuration")
                    (fun _ _ => eq_refl) (or_intror (or_introl eq_refl))
                    eq_refl eq_refl)
      as [c' [e' [_ [Hfail Hrun]]]].
    inversion Hfail. subst e'. exact Hrun.
Defined.

Lemma postProcess_events (env : Collaborators) (options : BrowserBuilderSchema)
    (context : BuilderContext) (transforms : Transforms) (w : World)
    (projectRoot : Path) (builds : Observable (list BuilderOutput)) :
  delivers (fun ev => isPostProcessing ev = true) (fun _ => True) builds ->
  Forall (fun ev => isPostProcessing ev = true)
         (snd (Rx.subscribe
                 (postProcess env options context transforms w projectRoot builds))).
Proof.
  intros Hbuilds.
  assert (H : delivers (fun ev => isPostProcessing ev = true)
                       (fun output => isPostProcessing (Emit output) = true)
                       (postProcess env options context transforms w projectRoot
                                    builds)).
  { apply postProcess_delivers with (Q := fun _ => True);
      try (intros; reflexivity); [|exact Hbuilds].
    intros pr buildEvent. apply augment_delivers_calls. reflexivity. }
  apply H. intros output _. constructor; [reflexivity|constructor].
Qed.

(** X6: for a resolvable project the webpack runner is called on the
    entries of the configuration list in order, each at most once, and
    before anything else of the stage; what follows are only calls of the
    augmenter and of the output transform and the results handed to the
    subscriber.  Every entry is run when no call of the runner throws; a
    call that throws ends the stage at once with its error, and the
    entries after it are not run. *)
Theorem configurations_are_run_in_order :
  forall (env : Collaborators) (options : BrowserBuilderSchema)
         (context : BuilderContext) (transforms : Transforms) (w : World)
         (workspace : Workspace) (configs : list Configuration)
         (name : string) (definition : ProjectDefinition),
    match ctx_target context with
    | Some t => Some (project t)
    | None => getDefaultProjectName workspace
    end = Some name ->
    name <> "" ->
    getProject workspace name = Ok definition ->
    let run :=
      Rx.subscribe (compile env options context transforms w (workspace, configs)) in
    let runner config :=
      runWebpack w config context (loggingFn env options context transforms) in
    (exists called rest post,
        configs = (called ++ rest)%list
        /\ snd run = (List.map RunWebpack called ++ post)%list
        /\ Forall (fun ev => isPostProcessing ev = true) post
        /\ ((forall config, In config configs -> exists source, runner config = Ok source) ->
            rest = []))
    /\ (forall (before after : list Configuration) (c : Configuration) (e : Exn),
          configs = (before ++ c :: after)%list ->
          (forall b, In b before -> exists source, runner b = Ok source) ->
          runner c = Throw e ->
          run = (Throw e, List.map RunWebpack (before ++ [c]))).
Proof.
  intros env options context transforms w workspace configs name definition
         Hname Hnonempty Hproject run runner.
  assert (Hrun : run
                 = bind (Rx.callEach RunWebpack runner configs)
                        (fun sources =>
                           Rx.subscribe
                             (postProcess env options context transforms w
                                (resolve env (ws_root workspace)
                                         (normalize env (proj_root definition)))
                                (Rx.combineLatest sources (arrival w))))).
  { unfold run, Rx.subscribe.
    rewrite (compile_resolved env options context transforms w workspace configs
                              name definition _ Hname Hnonempty Hproject).
    reflexivity. }
  split.
  - destruct (callEach_inv RunWebpack runner configs)
      as [called [rest [Hconfigs [Htrace [Hok Hthrow]]]]].
    rewrite Hrun, snd_bind, Htrace.
    destruct (fst (Rx.callEach RunWebpack runner configs)) as [sources|e] eqn:Hcalls.
    + exists called, rest, 
        (snd (Rx.subscribe
                (postProcess env options context transforms w
                   (resolve env (ws_root workspace)
                            (normalize env (proj_root definition)))
                   (Rx.combineLatest sources (arrival w))))).
      split; [exact Hconfigs|]. split; [reflexivity|]. split.
      * apply postProcess_events, delivers_combineLatest.
      * intros _. apply (Hok sources eq_refl).
    + exists called, rest, []. split; [exact Hconfigs|].
      split; [rewrite app_nil_r; reflexivity|]. split; [constructor|].
      intros Hall. destruct (Hthrow e eq_refl) as [before [c [Hcalled [Hc _]]]].
      destruct (Hall c) as [source Hsource].
      * rewrite Hconfigs, Hcalled. apply in_or_app. left. apply in_or_app. right.
        now left.
      * congruence.
  - intros before after c e -> Hbefore Hthrows.
    rewrite Hrun, (callEach_throws RunWebpack runner before after c e Hbefore Hthrows).
    reflexivity.
Qed.

Lemma configurations_are_run_in_order_witness :
  Rx.subscribe (compile Sample.env Sample.plain Sample.context
                        Sample.noTransforms Sample.validating
                        (Sample.workspace,
                         [Sample.configuration; emptyObject; Sample.configuration]))
  = (Throw (JsError "Invalid configuration object."),
     [RunWebpack Sample.configuration; RunWebpack emptyObject])
  /\ exists called rest post,
       [Sample.configuration; Sample.configuration] = (called ++ rest)%list
       /\ snd (Rx.subscribe (compile Sample.env Sample.plain Sample.context
                                     Sample.noTransforms Sample.validating
                                     (Sample.workspace,
                                      [Sample.configuration; Sample.configuration])))
          = (List.map RunWebpack called ++ post)%list
       /\ Forall (fun ev => isPostProcessing ev = true) post
       /\ rest = [].
Proof.
  split.
  - apply (proj2 (configurations_are_run_in_order
                    Sample.env Sample.plain Sample.context Sample.noTransforms
                    Sample.validating Sample.workspace
                    [Sample.configuration; emptyObject; Sample.configuration]
                    "app" {| proj_root := "app" |} eq_refl
                    ltac:(discriminate) eq_refl)
                 [Sample.configuration] [Sample.configuration] emptyObject
                 (JsError "Invalid configuration object.") eq_refl).
    + intros b [<-|[]]. eexists. reflexivity.
    + reflexivity.
  - destruct (proj1 (configurations_are_run_in_order
                       Sample.env Sample.plain Sample.context Sample.noTransforms
                       Sample.validating Sample.workspace
                       [Sample.configuration; Sample.configuration]
                       "app" {| proj_root := "app" |} eq_refl
                       ltac:(discriminate) eq_refl))
      as [called [rest [post [Hconfigs [Htrace [Hpost Hall]]]]]].
    exists called, rest, post.
    split; [exact Hconfigs|]. split; [exact Htrace|]. split; [exact Hpost|].
    apply Hall. intros config [<-|[<-|[]]]; eexists; reflexivity.
Defined.

(** X7: with an empty configuration list the stage completes at once:
    no webpack run is issued and the observer receives nothing, although
    the operation ends without error. *)
Theorem empty_configuration_list_completes_silently :
  forall (env : Collaborators) (options : BrowserBuilderSchema)
         (context : BuilderContext) (transforms : Transforms) (w : World)
         (workspace : Workspace) (name : string) (definition : ProjectDefinition)
         (next : BuilderOutput -> Eff Event unit),
    match ctx_target context with
    | Some t => Some (project t)
    | None => getDefaultProjectName workspace
    end = Some name ->
    name <> "" ->
    getProject workspace name = Ok definition ->
    compile env options context transforms w (workspace, []) next = (Ok tt, []).
Proof.
  intros env options context transforms w workspace name definition next
         Hname Hnonempty Hproject.
  rewrite (compile_resolved env options context transforms w workspace []
                            name definition next Hname Hnonempty Hproject).
  unfold postProcess, Rx.switchMap, Rx.concatMap, Rx.map, Rx.combineLatestOf,
    Rx.combineLatest.
  cbn [Rx.callEach].
  change (@ret Event (list (Recorded BuilderOutput)) [])
    with (@pure Event _ (Ok (@nil (Recorded BuilderOutput)))).
  rewrite bind_pure_ok. cbn [List.map].
  rewrite heard_all by constructor. rewrite combine_nil. reflexivity.
Qed.

Lemma empty_configuration_list_completes_silently_witness :
  compile Sample.env Sample.options Sample.context Sample.noTransforms
          Sample.world (Sample.workspace, [])
          (fun output => tell (Emit output))
  = (Ok tt, []).
Proof.
  apply (empty_configuration_list_completes_silently
           Sample.env Sample.options Sample.context Sample.noTransforms
           Sample.world Sample.workspace "app" {| proj_root := "app" |}
           (fun output => tell (Emit output)) eq_refl).
  - discriminate.
  - reflexivity.
Defined.

(** X8: when the workspace does not define the resolved project, the
    stage fails with the error of the lookup before any webpack run is
    issued, and the observer receives nothing. *)
Theorem unknown_project_fails_before_webpack :
  forall (env : Collaborators) (options : BrowserBuilderSchema)
         (context : BuilderContext) (transforms : Transforms) (w : World)
         (workspace : Workspace) (configs : list Configuration)
         (name : string) (e : Exn)
         (next : BuilderOutput -> Eff Event unit),
    match ctx_target context with
    | Some t => Some (project t)
    | None => getDefaultProjectName workspace
    end = Some name ->
    name <> "" ->
    getProject workspace name = Throw e ->
    compile env options context transforms w (workspace, configs) next
    = (Throw e, []).
Proof.
  intros env options context transforms w workspace configs name e next
         Hname Hnonempty Hproject.
  unfold compile. rewrite Hname.
  destruct name as [|c name]; [contradiction Hnonempty; reflexivity|].
  simpl truthyString. cbv iota. rewrite Hproject. reflexivity.
Qed.

Lemma unknown_project_fails_before_webpack_witness :
  compile Sample.env Sample.options Sample.context Sample.noTransforms
          Sample.world (Sample.stale, [Sample.configuration])
          (fun output => tell (Emit output))
  = (Throw (JsError "Project does not exist."), []).
Proof.
  apply (unknown_project_fails_before_webpack
           Sample.env Sample.options Sample.context Sample.noTransforms
           Sample.world Sample.stale [Sample.configuration] "app"
           (JsError "Project does not exist.")
           (fun output => tell (Emit output)) eq_refl).
  - discriminate.
  - reflexivity.
Defined.

(** ** The shape of a run *)

Lemma forEach_throwing {A} (f : A -> Eff Event unit) (l : list A) (e : Exn)
    (t : list Event) :
  (forall a, f a = (Throw e, t)) ->
  forEach f l = match l with
                | [] => (Ok tt, [])
                | _ :: _ => (Throw e, t)
                end.
Proof.
  intros Hf. destruct l as [|a l]; [reflexivity|]. simpl. rewrite Hf. reflexivity.
Qed.

(** Observables that emit at most once are combined into at most one
    array, however much of them is heard. *)
Lemma combine_emitting_once {A} (sources : list (Recorded A)) (order : list nat) :
  Forall (fun source => List.length (emitted source) <= 1) sources ->
  List.length (Rx.combine (List.map emitted sources)
                          (List.map (fun _ => None) (List.map emitted sources))
                          order) <= 1.
Proof.
  intros Hsources. apply combine_at_most_once.
  induction Hsources as [|source sources Hone _ IH]; simpl; constructor;
    [right; split; [exact Hone|reflexivity]|exact IH].
Qed.

Section RunShape.

Variable env : Collaborators.
Variable options : BrowserBuilderSchema.
Variable context : BuilderContext.
Variable transforms : Transforms.
Variable w : World.

Hypothesis transforms_emit_once : emitsOnce transforms.

Lemma shaped_nil : shaped env options context transforms [].
Proof.
  exists [], [], [], []. split; [reflexivity|]. split; [now left|].
  split; [reflexivity|constructor].
Qed.

Lemma compile_shape (found : Workspace * list Configuration) :
  exists rs post,
    snd (compile env options context transforms w found (fun output => tell (Emit output)))
    = (List.map RunWebpack rs ++ post)%list
    /\ Forall (fun ev => isPostProcessing ev = true) post.
Proof.
  destruct found as [workspace configs].
  assert (Hnone : forall e,
             exists rs post,
               snd (@throw Event unit e) = (List.map RunWebpack rs ++ post)%list
               /\ Forall (fun ev => isPostProcessing ev = true) post)
    by (intros e; exists [], []; split; [reflexivity|constructor]).
  unfold compile.
  destruct (match ctx_target context with
            | Some t => Some (project t)
            | None => getDefaultProjectName workspace
            end) as [name|]; [|apply Hnone].
  destruct (truthyString name); [|apply Hnone].
  destruct (getProject workspace name) as [definition|e]; [|apply Hnone].
  set (runner := fun config =>
                   runWebpack w config context
                              (loggingFn env options context transforms)).
  set (projectRoot := resolve env (ws_root workspace)
                              (normalize env (proj_root definition))).
  change (exists rs post,
             snd (bind (Rx.callEach RunWebpack runner configs)
                       (fun sources =>
                          Rx.subscribe
                            (postProcess env options context transforms w projectRoot
                               (Rx.combineLatest sources (arrival w)))))
             = (List.map RunWebpack rs ++ post)%list
             /\ Forall (fun ev => isPostProcessing ev = true) post).
  destruct (callEach_inv RunWebpack runner configs)
    as [called [rest [_ [Htrace _]]]].
  rewrite snd_bind, Htrace. exists called.
  destruct (fst (Rx.callEach RunWebpack runner configs)) as [sources|e].
  - eexists. split; [reflexivity|].
    apply postProcess_events, delivers_combineLatest.
  - exists []. split; [rewrite app_nil_r; reflexivity|constructor].
Qed.

Lemma clean_shape (found : Workspace * list Configuration) :
  shaped env options context transforms
         (snd (cleanOutput env options context w found
                 (fun found' =>
                    compile env options context transforms w found'
                            (fun output => tell (Emit output))))).
Proof.
  destruct found as [workspace config]. unfold cleanOutput.
  destruct (isTrue (deleteOutputPath options)) eqn:Hdelete.
  - unfold Rx.map, Rx.fromCall. rewrite snd_bind. simpl fst. simpl snd at 1.
    destruct (deleteOutputDir w _ _) as [[]|e].
    + destruct (compile_shape (workspace, config)) as [rs [post [Htrace Hpost]]].
      exists [], [DeleteOutputDir (normalize env (workspaceRoot context))
                                  (normalize env (outputPath options))], rs, post.
      rewrite Htrace. split; [reflexivity|]. split; [right; auto|].
      split; [reflexivity|exact Hpost].
    + exists [], [DeleteOutputDir (normalize env (workspaceRoot context))
                                  (normalize env (outputPath options))], [], [].
      split; [reflexivity|]. split; [right; auto|].
      split; [reflexivity|constructor].
  - unfold Rx.of_.
    destruct (compile_shape (workspace, config)) as [rs [post [Htrace Hpost]]].
    exists [], [], rs, post. rewrite Htrace.
    split; [reflexivity|]. split; [now left|]. split; [reflexivity|exact Hpost].
Qed.

Lemma shaped_after_config (cs : list Configuration) (trace : list Event) :
  tf_config transforms <> None ->
  shaped env options context transforms trace ->
  shaped env options context transforms (List.map ConfigFn cs ++ trace).
Proof.
  intros Hsome [cs' [dels [rs [post [-> [Hdels [Hcs Hpost]]]]]]].
  exists (cs ++ cs')%list, dels, rs, post.
  split; [rewrite map_app, <- app_assoc; reflexivity|].
  split; [exact Hdels|]. split; [intros Hnone; contradiction|exact Hpost].
Qed.

Lemma transform_shape (found : Workspace * list Configuration) :
  shaped env options context transforms (snd (transformConfigs transforms w found
                 (fun found' =>
                    cleanOutput env options context w found'
                      (fun found'' => compile env options context transforms w
                                              found'' (fun output => tell (Emit output)))))).
Proof.
  destruct found as [workspace config]. unfold transformConfigs.
  pose proof transforms_emit_once as Honce. unfold emitsOnce in Honce.
  destruct (tf_config transforms) as [configFn|] eqn:Hfn;
    [|apply clean_shape].
  assert (Hsome : tf_config transforms <> None) by (rewrite Hfn; discriminate).
  unfold Rx.map, Rx.combineLatestOf.
  destruct (callEach_inv ConfigFn (fun c => configFn workspace c) config)
    as [called [rest [_ [Htrace [Hok _]]]]].
  rewrite snd_bind, Htrace.
  destruct (fst (Rx.callEach ConfigFn (fun c => configFn workspace c) config))
    as [sources|e];
    [|rewrite <- (app_nil_r (List.map ConfigFn called));
      apply shaped_after_config; [exact Hsome|apply shaped_nil]].
  apply shaped_after_config; [exact Hsome|].
  destruct (Hok sources eq_refl) as [_ Hsources].
  assert (Hlengths : Forall (fun source => List.length (emitted source) <= 1) sources).
  { clear -Hsources Honce. induction Hsources as [|c source cs sources Hc _ IH];
      constructor; [|exact IH].
    exact (Honce configFn workspace c source eq_refl Hc). }
  unfold Rx.combineLatest. cbv zeta.
  destruct (Rx.heard (List.map emitted sources) (List.map failure sources)
                     (seq 0 (List.length config) ++ configArrival w))
    as [prefix failed].
  pose proof (combine_emitting_once sources prefix Hlengths) as Hmost.
  rewrite snd_bind.
  destruct (Rx.combine (List.map emitted sources)
                       (List.map (fun _ => None) (List.map emitted sources)) prefix)
    as [|array [|other arrays]]; [| |simpl in Hmost; lia].
  - simpl. destruct failed; apply shaped_nil.
  - rewrite forEach_one. cbv beta.
    match goal with
    | |- shaped _ _ _ _ (match fst ?m with
                         | Ok _ => (snd ?m ++ snd ?k)%list
                         | Throw _ => snd ?m
                         end) =>
        assert (Hsame : match fst m with
                        | Ok _ => (snd m ++ snd k)%list
                        | Throw _ => snd m
                        end = snd m)
          by (destruct (fst m); [destruct failed; simpl; apply app_nil_r|reflexivity]);
        rewrite Hsame
    end.
    apply clean_shape.
Qed.

Lemma run_shape :
  shaped env options context transforms
         (snd (Rx.subscribe
                 (buildWebpackBrowser env options context transforms w))).
Proof.
  unfold Rx.subscribe, buildWebpackBrowser, Rx.switchMap, Rx.concatMap, Rx.of_,
    Rx.from.
  rewrite snd_bind. simpl fst. simpl snd at 1.
  destruct (buildBrowserWebpackConfigFromContext env options context w)
    as [found|e]; [|apply shaped_nil].
  apply transform_shape.
Qed.

End RunShape.

Lemma sorted_app {A} (R : A -> A -> Prop) (l1 l2 : list A) :
  StronglySorted R l1 -> StronglySorted R l2 ->
  (forall a b, In a l1 -> In b l2 -> R a b) ->
  StronglySorted R (l1 ++ l2).
Proof.
  intros H1 H2 Hcross. induction H1 as [|a l1 Hsorted IH Hall]; simpl; [exact H2|].
  constructor.
  - apply IH. intros x y Hx Hy. apply Hcross; [now right|exact Hy].
  - apply Forall_app. split; [exact Hall|].
    apply Forall_forall. intros b Hb. apply Hcross; [now left|exact Hb].
Qed.

Lemma same_stage_sorted (n : nat) (l : list Event) :
  Forall (fun ev => stage ev = n) l ->
  StronglySorted (fun a b => stage a <= stage b) l.
Proof.
  induction 1 as [|ev l Hev Hl IH]; constructor; [exact IH|].
  apply Forall_forall. intros b Hb. rewrite Forall_forall in Hl.
  rewrite Hev, (Hl b Hb). apply le_n.
Qed.

Lemma shaped_stages (env : Collaborators) (options : BrowserBuilderSchema)
    (context : BuilderContext) (transforms : Transforms) (trace : list Event) :
  shaped env options context transforms trace ->
  exists l0 l1 l2 l3,
    trace = (l0 ++ l1 ++ l2 ++ l3)%list
    /\ Forall (fun ev => stage ev = 0) l0
    /\ Forall (fun ev => stage ev = 1) l1
    /\ Forall (fun ev => stage ev = 2) l2
    /\ Forall (fun ev => stage ev = 3) l3.
Proof.
  intros [cs [dels [rs [post [-> [Hdels [_ Hpost]]]]]]].
  exists (List.map ConfigFn cs), dels, (List.map RunWebpack rs), post.
  split; [reflexivity|]. repeat split.
  - apply Forall_forall. intros ev Hev. apply in_map_iff in Hev.
    destruct Hev as [c [<- _]]. reflexivity.
  - destruct Hdels as [->|[_ ->]]; repeat constructor.
  - apply Forall_forall. intros ev Hev. apply in_map_iff in Hev.
    destruct Hev as [c [<- _]]. reflexivity.
  - apply Forall_forall. intros ev Hev. rewrite Forall_forall in Hpost.
    specialize (Hpost ev Hev). destruct ev; simpl in *; congruence.
Qed.

(** X9: in every run with a configuration transform whose observables
    emit at most once, or with none, the stages follow one another and
    never go back: all calls of the configuration transform come first,
    then the call of the output cleaner, then the webpack runs, then the
    events of the service-worker step, of the output transform and the
    results. *)
Theorem stages_never_go_back :
  forall (env : Collaborators) (options : BrowserBuilderSchema)
         (context : BuilderContext) (transforms : Transforms) (w : World),
    emitsOnce transforms ->
    StronglySorted (fun a b => stage a <= stage b)
      (snd (Rx.subscribe (buildWebpackBrowser env options context transforms w))).
Proof.
  intros env options context transforms w Honce.
  destruct (shaped_stages env options context transforms _
              (run_shape env options context transforms w Honce))
    as [l0 [l1 [l2 [l3 [-> [H0 [H1 [H2 H3]]]]]]]].
  rewrite Forall_forall in H0, H1, H2, H3.
  repeat apply sorted_app;
    try (eapply same_stage_sorted; apply Forall_forall; eassumption).
  - intros a b Ha Hb. rewrite (H2 a Ha), (H3 b Hb). lia.
  - intros a b Ha Hb. rewrite (H1 a Ha).
    apply in_app_or in Hb. destruct Hb as [Hb|Hb];
      [rewrite (H2 b Hb)|rewrite (H3 b Hb)]; lia.
  - intros a b Ha Hb. rewrite (H0 a Ha). lia.
Qed.

Lemma stages_never_go_back_witness :
  List.map stage
    (snd (Rx.subscribe
            (buildWebpackBrowser Sample.env Sample.options Sample.context
                                 Sample.tagging Sample.world)))
  = [0; 1; 2; 3; 3; 3; 3]
  /\ StronglySorted (fun a b => stage a <= stage b)
       (snd (Rx.subscribe
               (buildWebpackBrowser Sample.env Sample.options Sample.context
                                    Sample.tagging Sample.world))).
Proof.
  split; [reflexivity|].
  apply (stages_never_go_back Sample.env Sample.options Sample.context
                              Sample.tagging Sample.world).
  intros configFn workspace config values Hfn Hcall.
  inversion Hfn. subst configFn. inversion Hcall. simpl. lia.
Defined.

Lemma filter_none_of_map {A} (test : Event -> bool) (f : A -> Event) (l : list A) :
  (forall a, test (f a) = false) -> filter test (List.map f l) = [].
Proof.
  intros H. induction l as [|a l IH]; simpl; [reflexivity|]. now rewrite H.
Qed.


(** X10: with a configuration transform whose observables emit at most
    once, or with none, the output cleaner is called at most once in a
    run, only when deleteOutputPath is set, and then on the normalized
    workspace root and the normalized output path. *)
Theorem output_directory_is_deleted_at_most_once :
  forall (env : Collaborators) (options : BrowserBuilderSchema)
         (context : BuilderContext) (transforms : Transforms) (w : World),
    emitsOnce transforms ->
    let trace :=
      snd (Rx.subscribe (buildWebpackBrowser env options context transforms w)) in
    List.length (filter isDeletion trace) <= 1
    /\ (forall ev, In ev trace -> isDeletion ev = true ->
                   isTrue (deleteOutputPath options) = true
                   /\ ev = DeleteOutputDir (normalize env (workspaceRoot context))
                                           (normalize env (outputPath options))).
Proof.
  intros env options context transforms w Honce trace.
  destruct (run_shape env options context transforms w Honce)
    as [cs [dels [rs [post [Htrace [Hdels [_ Hpost]]]]]]].
  fold trace in Htrace. rewrite Htrace.
  assert (Hcs : filter isDeletion (List.map ConfigFn cs) = [])
    by (apply filter_none_of_map; reflexivity).
  assert (Hrs : filter isDeletion (List.map RunWebpack rs) = [])
    by (apply filter_none_of_map; reflexivity).
  assert (Hp : filter isDeletion post = []).
  { clear Htrace. induction Hpost as [|ev post Hev _ IH]; [reflexivity|].
    simpl. destruct ev; simpl in *; try discriminate; exact IH. }
  split.
  - rewrite !filter_app, Hcs, Hrs, Hp, app_nil_r. simpl.
    destruct Hdels as [->|[_ ->]]; simpl; lia.
  - intros ev Hin Hdel.
    assert (Hfiltered : In ev (filter isDeletion
                                 (List.map ConfigFn cs ++ dels
                                  ++ List.map RunWebpack rs ++ post)))
      by (apply filter_In; split; assumption).
    rewrite !filter_app, Hcs, Hrs, Hp, app_nil_r in Hfiltered. simpl in Hfiltered.
    apply filter_In in Hfiltered. destruct Hfiltered as [Hin' _].
    destruct Hdels as [->|[Hrequested ->]]; [contradiction|].
    destruct Hin' as [<-|[]]. split; [exact Hrequested|reflexivity].
Qed.

Lemma output_directory_is_deleted_at_most_once_witness :
  In (DeleteOutputDir "/ws" "dist")
     (snd (Rx.subscribe
             (buildWebpackBrowser Sample.env Sample.options Sample.context
                                  Sample.noTransforms Sample.world)))
  /\ List.length
       (filter isDeletion
               (snd (Rx.subscribe
                       (buildWebpackBrowser Sample.env Sample.options Sample.context
                                            Sample.noTransforms Sample.world))))
     <= 1
  /\ isTrue (deleteOutputPath Sample.options) = true
  /\ DeleteOutputDir "/ws" "dist"
     = DeleteOutputDir (normalize Sample.env (workspaceRoot Sample.context))
                       (normalize Sample.env (outputPath Sample.options)).
Proof.
  assert (Hin : In (DeleteOutputDir "/ws" "dist")
                   (snd (Rx.subscribe
                           (buildWebpackBrowser Sample.env Sample.options
                                                Sample.context Sample.noTransforms
                                                Sample.world))))
    by (simpl; left; reflexivity).
  assert (Honce : emitsOnce Sample.noTransforms)
    by (intros configFn workspace config values Hfn; discriminate Hfn).
  split; [exact Hin|]. split.
  - apply (proj1 (output_directory_is_deleted_at_most_once
                    Sample.env Sample.options Sample.context Sample.noTransforms
                    Sample.world Honce)).
  - apply (proj2 (output_directory_is_deleted_at_most_once
                    Sample.env Sample.options Sample.context Sample.noTransforms
                    Sample.world Honce)
                 (DeleteOutputDir "/ws" "dist") Hin eq_refl).
Defined.

(** X11: when the output cleaner fails, the run stops there: no webpack
    run is issued, the augmenter and the output transform are not called,
    nothing is handed to the subscriber, and a run that has reached the
    clean step fails with the error of the cleaner. *)
Theorem clean_failure_stops_the_run :
  forall (env : Collaborators) (options : BrowserBuilderSchema)
         (context : BuilderContext) (transforms : Transforms) (w : World)
         (e : Exn),
    isTrue (deleteOutputPath options) = true ->
    deleteOutputDir w (normalize env (workspaceRoot context))
                      (normalize env (outputPath options)) = Throw e ->
    let run := Rx.subscribe (buildWebpackBrowser env options context transforms w) in
    (forall ev, In ev (snd run) -> stage ev <= 1)
    /\ (forall ev, In ev (snd run) -> isDeletion ev = true -> fst run = Throw e).
Proof.
  intros env options context transforms w e Hrequested Hfails run.
  assert (Hclean :
            forall found next,
              cleanOutput env options context w found next
              = (Throw e, [DeleteOutputDir (normalize env (workspaceRoot context))
                                           (normalize env (outputPath options))])).
  { intros [workspace config] next. unfold cleanOutput, Rx.map, Rx.fromCall.
    rewrite Hrequested, Hfails. reflexivity. }
  assert (Hcalls :
            forall (cs : list Configuration) ev,
              In ev (List.map ConfigFn cs) -> stage ev <= 1 /\ isDeletion ev = false).
  { intros cs ev Hev. apply in_map_iff in Hev. destruct Hev as [c [<- _]].
    split; [simpl; lia|reflexivity]. }
  unfold run, Rx.subscribe, buildWebpackBrowser, Rx.switchMap, Rx.concatMap,
    Rx.of_, Rx.from.
  destruct (buildBrowserWebpackConfigFromContext env options context w)
    as [[workspace config]|e0];
    [rewrite bind_pure_ok|simpl; split; intros ev []].
  unfold transformConfigs.
  destruct (tf_config transforms) as [configFn|].
  - unfold Rx.map, Rx.combineLatestOf.
    destruct (callEach_inv ConfigFn (fun c => configFn workspace c) config)
      as [called [rest [_ [Htrace _]]]].
    destruct (Rx.callEach ConfigFn (fun c => configFn workspace c) config)
      as [[sources|e1] calls]; simpl in Htrace; subst calls.
    + rewrite bind_ok. unfold Rx.combineLatest. cbv zeta beta.
      destruct (Rx.heard (List.map emitted sources) (List.map failure sources)
                         (seq 0 (List.length config) ++ configArrival w))
        as [prefix failed].
      rewrite (forEach_throwing _ _ e
                 [DeleteOutputDir (normalize env (workspaceRoot context))
                                  (normalize env (outputPath options))])
        by (intros a; apply Hclean).
      destruct (Rx.combine (List.map emitted sources)
                           (List.map (fun _ => None) (List.map emitted sources))
                           prefix) as [|array arrays].
      * assert (Hquiet : exists r, 
                   bind (@pair (Result unit) (list Event) (Ok tt) [])
                        (fun _ => match failed with
                                  | Some e' => throw e'
                                  | None => ret tt
                                  end) = (r, []))
          by (destruct failed; eexists; reflexivity).
        destruct Hquiet as [r Hquiet]. rewrite Hquiet. cbn [fst snd].
        rewrite app_nil_r. split.
        -- intros ev Hev. apply (Hcalls called ev Hev).
        -- intros ev Hev Hdel. destruct (Hcalls called ev Hev) as [_ Hnot].
           rewrite Hnot in Hdel. discriminate.
      * cbn [bind fst snd]. split.
        -- intros ev Hev. apply in_app_or in Hev. destruct Hev as [Hev|[<-|[]]];
             [apply (Hcalls called ev Hev)|simpl; lia].
        -- intros ev _ _. reflexivity.
    + simpl. split.
      * intros ev Hev. apply (Hcalls called ev Hev).
      * intros ev Hev Hdel. destruct (Hcalls called ev Hev) as [_ Hnot].
        rewrite Hnot in Hdel. discriminate.
  - unfold Rx.of_. rewrite Hclean. simpl. split.
    + intros ev [<-|[]]. simpl. lia.
    + intros ev _ _. reflexivity.
Qed.

Lemma clean_failure_stops_the_run_witness :
  Rx.subscribe (buildWebpackBrowser Sample.env Sample.options Sample.context
                                    Sample.noTransforms Sample.readOnly)
  = (Throw (JsError "EACCES: permission denied"), [DeleteOutputDir "/ws" "dist"])
  /\ fst (Rx.subscribe (buildWebpackBrowser Sample.env Sample.options Sample.context
                                            Sample.noTransforms Sample.readOnly))
     = Throw (JsError "EACCES: permission denied").
Proof.
  split; [reflexivity|].
  apply (proj2 (clean_failure_stops_the_run
                  Sample.env Sample.options Sample.context Sample.noTransforms
                  Sample.readOnly (JsError "EACCES: permission denied")
                  eq_refl eq_refl)
               (DeleteOutputDir "/ws" "dist")).
  - simpl. left. reflexivity.
  - reflexivity.
Defined.

(** X12: when the service worker is not requested, the augmenter is
    never called, whatever the build events and the watch flag. *)
Theorem no_augmentation_unless_requested :
  forall (env : Collaborators) (options : BrowserBuilderSchema)
         (context : BuilderContext) (transforms : Transforms) (w : World),
    isTrue (serviceWorker options) = false ->
    forall ev,
      In ev (snd (Rx.subscribe (buildWebpackBrowser env options context transforms w))) ->
      isAugmentation ev = false.
Proof.
  intros env options context transforms w Hsw.
  apply Forall_forall.
  apply buildWebpackBrowser_respects with (Q := fun _ => True); auto.
  intros projectRoot buildEvent. apply augment_delivers_calls.
  rewrite Hsw, andb_false_r. discriminate.
Qed.

Lemma no_augmentation_unless_requested_witness :
  Forall (fun ev => isAugmentation ev = false)
         (snd (Rx.subscribe
                 (buildWebpackBrowser Sample.env Sample.plain Sample.context
                                      Sample.noTransforms Sample.world))).
Proof.
  apply Forall_forall.
  apply (no_augmentation_unless_requested
           Sample.env Sample.plain Sample.context Sample.noTransforms Sample.world
           eq_refl).
Defined.

(** X13: every call of the augmenter receives the normalized workspace
    root, the output path resolved against that root, and the
    ngswConfigPath option as it was given. *)
Theorem augmenter_receives_resolved_paths :
  forall (env : Collaborators) (options : BrowserBuilderSchema)
         (context : BuilderContext) (transforms : Transforms) (w : World)
         (r projectRoot path : Path) (href : string) (ngsw : option string),
    In (AugmentAppWithServiceWorker r projectRoot path href ngsw)
       (snd (Rx.subscribe (buildWebpackBrowser env options context transforms w))) ->
    r = normalize env (workspaceRoot context)
    /\ path = resolve env (normalize env (workspaceRoot context))
                      (normalize env (outputPath options))
    /\ ngsw = ngswConfigPath options.
Proof.
  intros env options context transforms w r projectRoot path href ngsw Hin.
  assert (Hinv : respects
                   (fun ev => match ev with
                              | AugmentAppWithServiceWorker r' _ p' _ n' =>
                                  r' = normalize env (workspaceRoot context)
                                  /\ p' = resolve env
                                            (normalize env (workspaceRoot context))
                                            (normalize env (outputPath options))
                                  /\ n' = ngswConfigPath options
                              | _ => True
                              end)
                   (Rx.subscribe (buildWebpackBrowser env options context
                                                      transforms w))).
  { apply buildWebpackBrowser_respects with (Q := fun _ => True);
      try (intros; exact I).
    intros pr buildEvent. apply augment_delivers_calls. unfold root. auto. }
  unfold respects in Hinv. rewrite Forall_forall in Hinv.
  exact (Hinv _ Hin).
Qed.

Lemma augmenter_receives_resolved_paths_witness :
  "/ws" = normalize Sample.env (workspaceRoot Sample.context)
  /\ "/ws/dist" = resolve Sample.env (normalize Sample.env (workspaceRoot Sample.context))
                          (normalize Sample.env (outputPath Sample.deployed))
  /\ Some "ngsw-config.json" = ngswConfigPath Sample.deployed.
Proof.
  apply (augmenter_receives_resolved_paths
           Sample.env Sample.deployed Sample.context Sample.noTransforms
           Sample.multiProject "/ws" "/ws/app" "/ws/dist" "/app/"
           (Some "ngsw-config.json")).
  simpl. right. left. reflexivity.
Defined.

(** ** Further properties of the post-processing steps *)

Lemma forEach_emit (outputs : list BuilderOutput) :
  forEach (fun output => tell (Emit output)) outputs = (Ok tt, List.map Emit outputs).
Proof.
  induction outputs as [|output outputs IH]; simpl; [reflexivity|].
  rewrite IH. reflexivity.
Qed.

(** With no output transform and an augmenter whose call returns, an
    array of build events processed alone ends without error. *)
Lemma postProcess_one_ending (env : Collaborators) (options : BrowserBuilderSchema)
    (context : BuilderContext) (transforms : Transforms) (w : World)
    (projectRoot : Path) (promise : Promise unit)
    (buildEvents : list BuilderOutput) :
  tf_output transforms = None ->
  augmentAppWithServiceWorker w
    (root env context) projectRoot
    (resolve env (root env context) (normalize env (outputPath options)))
    (orElse (baseHref options) "/") (ngswConfigPath options) = Ok promise ->
  fst (Rx.subscribe (postProcess env options context transforms w projectRoot
                                 (Rx.emits [buildEvents]))) = Ok tt.
Proof.
  intros Hout Hpromise.
  rewrite (postProcess_one env options context transforms w projectRoot
                           buildEvents Hout), Hpromise.
  destruct (forallb success buildEvents && negb (isTrue (watch options))
            && isTrue (serviceWorker options)); reflexivity.
Qed.

(** X14: a sequence of arrays of build events is post-processed array by
    array and in order, each array as if it were alone, until the
    processing of one of them fails.  Without an output transform and
    with an augmenter whose call returns a promise, no array fails: the
    run ends without error and its trace is the concatenation of the
    traces that each array yields when it is processed alone. *)
Theorem build_cycles_are_processed_in_turn :
  forall (env : Collaborators) (options : BrowserBuilderSchema)
         (context : BuilderContext) (transforms : Transforms) (w : World)
         (projectRoot : Path) (arrays : list (list BuilderOutput)),
    Rx.subscribe (postProcess env options context transforms w projectRoot
                              (Rx.emits arrays))
    = forEach (fun buildEvents =>
                 Rx.subscribe (postProcess env options context transforms w
                                           projectRoot (Rx.emits [buildEvents])))
              arrays
    /\ (forall promise : Promise unit,
          tf_output transforms = None ->
          augmentAppWithServiceWorker w
            (root env context) projectRoot
            (resolve env (root env context) (normalize env (outputPath options)))
            (orElse (baseHref options) "/") (ngswConfigPath options) = Ok promise ->
          Rx.subscribe (postProcess env options context transforms w projectRoot
                                    (Rx.emits arrays))
          = (Ok tt,
             flat_map (fun buildEvents =>
                         snd (Rx.subscribe
                                (postProcess env options context transforms w
                                             projectRoot (Rx.emits [buildEvents]))))
                      arrays)).
Proof.
  intros env options context transforms w projectRoot arrays.
  split; [apply postProcess_emits|].
  intros promise Hout Hpromise.
  rewrite postProcess_emits.
  induction arrays as [|buildEvents arrays IH]; [reflexivity|].
  simpl forEach. rewrite IH. simpl flat_map.
  pose proof (postProcess_one_ending env options context transforms w projectRoot
                                     promise buildEvents Hout Hpromise) as Hending.
  destruct (Rx.subscribe (postProcess env options context transforms w projectRoot
                                      (Rx.emits [buildEvents]))) as [r t].
  simpl in Hending. subst r. reflexivity.
Qed.

Lemma build_cycles_are_processed_in_turn_witness :
  Rx.subscribe (postProcess Sample.env Sample.options Sample.context
                            Sample.noTransforms Sample.multiProject "/ws/app"
                            (Rx.emits [[Sample.passed; Sample.failed];
                                       [Sample.passed; Sample.passed]]))
  = (Ok tt,
     [ Emit {| success := false; out_outputPath := Some "/ws/dist" |};
       AugmentAppWithServiceWorker "/ws" "/ws/app" "/ws/dist" "/" None;
       Emit {| success := true; out_outputPath := Some "/ws/dist" |} ])
  /\ Rx.subscribe (postProcess Sample.env Sample.options Sample.context
                               Sample.noTransforms Sample.crashing "/ws/app"
                               (Rx.emits [[Sample.passed; Sample.failed];
                                          [Sample.passed; Sample.passed];
                                          [Sample.passed; Sample.failed]]))
     = (Throw (JsError "Cannot find module '@angular/service-worker'"),
        [ Emit {| success := false; out_outputPath := Some "/ws/dist" |};
          AugmentAppWithServiceWorker "/ws" "/ws/app" "/ws/dist" "/" None ]).
Proof.
  split.
  - apply (proj2 (build_cycles_are_processed_in_turn
                    Sample.env Sample.options Sample.context Sample.noTransforms
                    Sample.multiProject "/ws/app"
                    [[Sample.passed; Sample.failed]; [Sample.passed; Sample.passed]])
                 (Ok tt) eq_refl eq_refl).
  - etransitivity;
      [apply (proj1 (build_cycles_are_processed_in_turn
                       Sample.env Sample.options Sample.context Sample.noTransforms
                       Sample.crashing "/ws/app"
                       [[Sample.passed; Sample.failed];
                        [Sample.passed; Sample.passed];
                        [Sample.passed; Sample.failed]]))|reflexivity].
Defined.

(** X15: without an output transform and with an augmenter whose call
    returns a promise, exactly one result is handed to the subscriber
    for every array of build events. *)
Theorem one_result_per_build_cycle :
  forall (env : Collaborators) (options : BrowserBuilderSchema)
         (context : BuilderContext) (transforms : Transforms) (w : World)
         (projectRoot : Path) (promise : Promise unit)
         (arrays : list (list BuilderOutput)),
    tf_output transforms = None ->
    augmentAppWithServiceWorker w
      (root env context) projectRoot
      (resolve env (root env context) (normalize env (outputPath options)))
      (orElse (baseHref options) "/") (ngswConfigPath options) = Ok promise ->
    List.length
      (filter isEmission
              (snd (Rx.subscribe
                      (postProcess env options context transforms w projectRoot
                                   (Rx.emits arrays)))))
    = List.length arrays.
Proof.
  intros env options context transforms w projectRoot promise arrays Hout Hpromise.
  rewrite postProcess_emits.
  induction arrays as [|buildEvents arrays IH]; [reflexivity|].
  simpl forEach. rewrite snd_bind.
  rewrite (postProcess_one_ending env options context transforms w projectRoot
                                  promise buildEvents Hout Hpromise).
  rewrite filter_app, length_app, IH.
  rewrite (postProcess_one env options context transforms w projectRoot
                           buildEvents Hout), Hpromise.
  destruct (forallb success buildEvents && negb (isTrue (watch options))
            && isTrue (serviceWorker options)); reflexivity.
Qed.

Lemma one_result_per_build_cycle_witness :
  List.length
    (filter isEmission
            (snd (Rx.subscribe
                    (postProcess Sample.env Sample.options Sample.context
                                 Sample.noTransforms Sample.world "/ws/app"
                                 (Rx.emits [[Sample.passed]; [Sample.failed];
                                            [Sample.passed]])))))
  = 3.
Proof.
  apply (one_result_per_build_cycle
           Sample.env Sample.options Sample.context Sample.noTransforms
           Sample.world "/ws/app"
           (Throw (JsError "ngsw-config.json not found"))
           [[Sample.passed]; [Sample.failed]; [Sample.passed]] eq_refl eq_refl).
Defined.

(** X16: when the augmenter succeeds, the result keeps the aggregate
    flag: without an output transform an array of build events yields
    one result whose success is true exactly when every event of the
    array succeeded, preceded by nothing but the call of the augmenter. *)
Theorem successful_augmentation_keeps_the_aggregate :
  forall (env : Collaborators) (options : BrowserBuilderSchema)
         (context : BuilderContext) (transforms : Transforms) (w : World)
         (projectRoot : Path) (buildEvents : list BuilderOutput),
    tf_output transforms = None ->
    augmentAppWithServiceWorker w
      (root env context) projectRoot
      (resolve env (root env context) (normalize env (outputPath options)))
      (orElse (baseHref options) "/") (ngswConfigPath options) = Ok (Ok tt) ->
    exists calls,
      Rx.subscribe (postProcess env options context transforms w projectRoot
                                (Rx.emits [buildEvents]))
      = (Ok tt,
         calls ++ [Emit {| success := forallb success buildEvents;
                           out_outputPath :=
                             Some (path_resolve env (workspaceRoot context)
                                                (outputPath options)) |}])%list
      /\ Forall (fun ev => isAugmentation ev = true) calls.
Proof.
  intros env options context transforms w projectRoot buildEvents Hout Hok.
  rewrite (postProcess_one env options context transforms w projectRoot
                           buildEvents Hout).
  rewrite Hok.
  destruct (forallb success buildEvents) eqn:Hall; simpl.
  - destruct (negb (isTrue (watch options)) && isTrue (serviceWorker options)).
    + eexists [_]. split; [reflexivity|]. repeat constructor.
    + exists []. split; [reflexivity|constructor].
  - exists []. split; [reflexivity|constructor].
Qed.

Lemma successful_augmentation_keeps_the_aggregate_witness :
  exists calls,
    Rx.subscribe (postProcess Sample.env Sample.deployed Sample.context
                              Sample.noTransforms Sample.multiProject "/ws/app"
                              (Rx.emits [[Sample.passed; Sample.passed]]))
    = (Ok tt,
       calls ++ [Emit {| success := true; out_outputPath := Some "/ws/dist" |}])%list
    /\ Forall (fun ev => isAugmentation ev = true) calls.
Proof.
  apply (successful_augmentation_keeps_the_aggregate
           Sample.env Sample.deployed Sample.context Sample.noTransforms
           Sample.multiProject "/ws/app" [Sample.passed; Sample.passed]
           eq_refl eq_refl).
Defined.

(** X17: a failed build is never augmented: for an array that holds a
    failed build event the augmenter is not called, whatever the options
    and the transforms. *)
Theorem failed_build_is_never_augmented :
  forall (env : Collaborators) (options : BrowserBuilderSchema)
         (context : BuilderContext) (transforms : Transforms) (w : World)
         (projectRoot : Path) (buildEvents : list BuilderOutput),
    Exists (fun r => success r = false) buildEvents ->
    Forall (fun ev => isAugmentation ev = false)
           (snd (Rx.subscribe
                   (postProcess env options context transforms w projectRoot
                                (Rx.emits [buildEvents])))).
Proof.
  intros env options context transforms w projectRoot buildEvents Hfailed.
  assert (Hall : forallb success buildEvents = false).
  { apply not_true_is_false. intros Htrue.
    rewrite forallb_forall in Htrue. apply Exists_exists in Hfailed.
    destruct Hfailed as [r [Hin Hr]]. rewrite (Htrue r Hin) in Hr. discriminate. }
  unfold Rx.subscribe, postProcess, Rx.switchMap, Rx.concatMap, Rx.map, Rx.emits,
    Rx.of_.
  rewrite forEach_one. unfold augment.
  change (success (aggregate buildEvents)) with (forallb success buildEvents).
  rewrite Hall. simpl andb. cbv iota. unfold Rx.of_, transformOutput.
  destruct (tf_output transforms) as [outputFn|].
  - apply delivers_observe with (Q := fun _ => True); [reflexivity| |].
    + apply Forall_forall. auto.
    + intros output _. constructor; [reflexivity|constructor].
  - constructor; [reflexivity|constructor].
Qed.

Lemma failed_build_is_never_augmented_witness :
  Forall (fun ev => isAugmentation ev = false)
         (snd (Rx.subscribe
                 (postProcess Sample.env Sample.options Sample.context
                              Sample.noTransforms Sample.world "/ws/app"
                              (Rx.emits [[Sample.passed; Sample.failed]])))).
Proof.
  apply (failed_build_is_never_augmented
           Sample.env Sample.options Sample.context Sample.noTransforms
           Sample.world "/ws/app" [Sample.passed; Sample.failed]).
  apply Exists_cons_tl. apply Exists_cons_hd. reflexivity.
Defined.

(** X18: when the augmenter's call returns, an output transform whose
    observable fails ends the run with its error: the subscriber has
    received what the transform emitted for the first array of build
    events before it failed and nothing else, and the arrays that follow
    are not processed any more. *)
Theorem output_transform_failure_ends_the_run :
  forall (env : Collaborators) (options : BrowserBuilderSchema)
         (context : BuilderContext) (transforms : Transforms) (w : World)
         (outputFn : BuilderOutput -> Recorded BuilderOutput) (e : Exn)
         (projectRoot : Path) (promise : Promise unit)
         (buildEvents : list BuilderOutput) (later : list (list BuilderOutput)),
    tf_output transforms = Some outputFn ->
    (forall output, failure (outputFn output) = Some e) ->
    augmentAppWithServiceWorker w
      (root env context) projectRoot
      (resolve env (root env context) (normalize env (outputPath options)))
      (orElse (baseHref options) "/") (ngswConfigPath options) = Ok promise ->
    let run :=
      Rx.subscribe (postProcess env options context transforms w projectRoot
                                (Rx.emits (buildEvents :: later))) in
    let output :=
      {| success :=
           forallb success buildEvents
           && (negb (negb (isTrue (watch options)) && isTrue (serviceWorker options))
               || fulfilled promise);
         out_outputPath :=
           Some (path_resolve env (workspaceRoot context) (outputPath options)) |} in
    fst run = Throw e
    /\ run = Rx.subscribe (postProcess env options context transforms w projectRoot
                                       (Rx.emits [buildEvents]))
    /\ filter (fun ev => negb (isAugmentation ev)) (snd run)
       = OutputFn output :: List.map Emit (emitted (outputFn output)).
Proof.
  intros env options context transforms w outputFn e projectRoot promise
         buildEvents later Hfn Hfails Hpromise run output.
  assert (Hfirst :
            exists calls,
              Rx.subscribe (postProcess env options context transforms w projectRoot
                                        (Rx.emits [buildEvents]))
              = (Throw e,
                 calls ++ OutputFn output :: List.map Emit (emitted (outputFn output)))%list
              /\ filter (fun ev => negb (isAugmentation ev)) calls = []).
  { unfold Rx.subscribe, postProcess, Rx.switchMap, Rx.concatMap, Rx.map, Rx.emits,
      Rx.of_.
    rewrite forEach_one. unfold augment, transformOutput, withOutputPath, aggregate.
    rewrite Hfn. cbn [success]. unfold output.
    assert (Hobserve :
              forall flag,
                Rx.observe
                  (OutputFn {| success := flag;
                               out_outputPath :=
                                 Some (path_resolve env (workspaceRoot context)
                                                    (outputPath options)) |})
                  (outputFn {| success := flag;
                               out_outputPath :=
                                 Some (path_resolve env (workspaceRoot context)
                                                    (outputPath options)) |})
                  (fun output0 => tell (Emit output0))
                = (Throw e,
                   OutputFn {| success := flag;
                               out_outputPath :=
                                 Some (path_resolve env (workspaceRoot context)
                                                    (outputPath options)) |}
                   :: List.map Emit
                        (emitted
                           (outputFn {| success := flag;
                                        out_outputPath :=
                                          Some (path_resolve env (workspaceRoot context)
                                                             (outputPath options)) |})))).
    { intros flag. unfold Rx.observe. rewrite forEach_emit, Hfails. simpl.
      rewrite app_nil_r. reflexivity. }
    destruct (forallb success buildEvents);
      destruct (isTrue (watch options)); destruct (isTrue (serviceWorker options));
      cbn [andb negb orb];
      unfold Rx.concatMap, Rx.fromCall, Rx.from, Rx.of_;
      rewrite ?Hpromise; unfold Rx.thenElse;
      try (destruct promise as [[]|e0]);
      cbn [fulfilled success bind call pure fst snd app];
      rewrite Hobserve;
      try (exists []; split; reflexivity);
      (eexists [_]; split; [reflexivity|reflexivity]). }
  destruct Hfirst as [calls [Hrun Hcalls]].
  assert (Hsame : run = (Throw e,
                         calls ++ OutputFn output
                               :: List.map Emit (emitted (outputFn output)))%list).
  { unfold run. rewrite postProcess_emits. simpl forEach. rewrite Hrun. reflexivity. }
  rewrite Hsame, Hrun. split; [reflexivity|]. split; [reflexivity|].
  cbn [snd]. rewrite filter_app, Hcalls. cbn [app filter isAugmentation negb].
  f_equal. clear. induction (emitted (outputFn output)) as [|o l IH];
    [reflexivity|]. simpl. rewrite IH. reflexivity.
Qed.

Lemma output_transform_failure_ends_the_run_witness :
  Rx.subscribe (postProcess Sample.env Sample.options Sample.context
                            Sample.vetoing Sample.multiProject "/ws/app"
                            (Rx.emits [[Sample.passed]; [Sample.passed]]))
  = (Throw (JsError "output rejected"),
     [AugmentAppWithServiceWorker "/ws" "/ws/app" "/ws/dist" "/" None;
      OutputFn {| success := true; out_outputPath := Some "/ws/dist" |}])
  /\ fst (Rx.subscribe (postProcess Sample.env Sample.options Sample.context
                                    Sample.vetoing Sample.multiProject "/ws/app"
                                    (Rx.emits [[Sample.passed]; [Sample.passed]])))
     = Throw (JsError "output rejected").
Proof.
  split; [reflexivity|].
  apply (proj1 (output_transform_failure_ends_the_run
                  Sample.env Sample.options Sample.context Sample.vetoing
                  Sample.multiProject
                  (fun _ => {| emitted := [];
                               failure := Some (JsError "output rejected") |})
                  (JsError "output rejected") "/ws/app" (Ok tt)
                  [Sample.passed] [[Sample.passed]]
                  eq_refl (fun _ => eq_refl) eq_refl)).
Defined.
